(** * Disaster Response Coordination Platform: cache-through integration layer

    A shallow embedding of the server's JavaScript sources:

    - [server/src/services/supabase.js]  (module [Supabase])
    - [server/src/routes/socialMedia.js] (module [SocialMedia])
    - [server/src/routes/geocode.js]     (module [Geocode])
    - [server/src/routes/resources.js]   (module [Resources])
    - [server/src/middleware/auth.js] and [server/src/routes/disasters.js]
      (modules [Auth] and [Disasters])

    Asynchronous functions are written in a state-and-exception monad: a
    rejected promise and a thrown exception are both [Throw].  Everything the
    code reads from outside the process is an oracle held in the state: the
    wall clock ([Date.now()], [new Date()]), [Math.random()], the outcome of
    each HTTP request made with axios and the outcome of each request sent
    to the database.  Calls to [console.*] and to the pino logger change
    neither state nor control flow and are left out. *)

From Stdlib Require Import QArith Qround Ascii String.
From stdpp Require Import base option list gmap strings pretty fin_maps.

Local Open Scope Z_scope.
Local Open Scope string_scope.

(** ** JavaScript values *)

(** JSON values, as they are cached and sent in responses.  [JDate ms]
    stands for the ISO-8601 string that [new Date(ms).toISOString()]
    produces; numbers are exact rationals. *)
#[warnings="-register-all"]
Inductive json : Type :=
  | JNull
  | JBool (b : bool)
  | JNum (q : Q)
  | JStr (s : string)
  | JDate (ms : Z)
  | JArr (l : list json)
  | JObj (fields : list (string * json)).

(** A thrown JavaScript [Error]: its [name] and [message]. *)
Record jserror : Type := MkError { ename : string; emessage : string }.

Definition Error (msg : string) : jserror := MkError "Error" msg.
Definition TypeError (msg : string) : jserror := MkError "TypeError" msg.

(** Truthiness of a string that may be [undefined]. *)
Definition truthy (o : option string) : bool :=
  match o with
  | Some s => negb (String.eqb s "")
  | None => false
  end.

(** [a || b] on strings. *)
Definition or_else (o : option string) (d : string) : string :=
  match o with
  | Some s => if String.eqb s "" then d else s
  | None => d
  end.

(** Property names of an object literal (the keys of a JSON object). *)
Definition keys (j : json) : list string :=
  match j with
  | JObj fields => fields.*1
  | _ => []
  end.

(** ** Results and the state-and-exception monad *)

Inductive Res (A : Type) : Type :=
  | Ok (a : A)
  | Throw (e : jserror).
Arguments Ok {A} a.
Arguments Throw {A} e.

Definition M (S A : Type) : Type := S -> Res A * S.

Definition ret {S A} (a : A) : M S A := fun s => (Ok a, s).

Definition throw {S A} (e : jserror) : M S A := fun s => (Throw e, s).

Definition bind {S A B} (m : M S A) (f : A -> M S B) : M S B :=
  fun s =>
    match m s with
    | (Ok a, s') => f a s'
    | (Throw e, s') => (Throw e, s')
    end.

(** [try { m } catch (e) { h e }] *)
Definition try_catch {S A} (m : M S A) (h : jserror -> M S A) : M S A :=
  fun s =>
    match m s with
    | (Ok a, s') => (Ok a, s')
    | (Throw e, s') => h e s'
    end.

Definition gets {S A} (f : S -> A) : M S A := fun s => (Ok (f s), s).

Definition modify {S} (f : S -> S) : M S unit := fun s => (Ok tt, f s).

#[global] Instance M_ret {S} : MRet (M S) := fun A a => ret a.
#[global] Instance M_bind {S} : MBind (M S) := fun A B f m => bind m f.

(** ** The world outside the process *)

(** What an axios request resolves to.  The body is already parsed; each
    adapter reads the shape it expects, and any other shape makes its
    property accesses fail. *)
Record tweet : Type := MkTweet {
  tweet_id : string; tweet_text : string; tweet_created_at : string }.

(** A Mapbox feature: [center = [lon, lat]], [relevance], [place_name]. *)
Record feature : Type := MkFeature {
  center_lon : Q; center_lat : Q; relevance : Q; place_name : string }.

(** One element matched by ['article, .news-item, .update'], with the
    trimmed text of the first match of each inner selector (the empty
    string when nothing matches). *)
Record element : Type := MkElement {
  el_title : string; el_content : string; el_time : string }.

Inductive http_body : Type :=
  | BodyTweets (tweets : list tweet)
  | BodyGemini (text : string)
  | BodyMapbox (features : list feature)
  | BodyHtml (elements : list element)
  | BodyOther.

Inductive http_result : Type :=
  | HttpErr (msg : string)
  | HttpOk (body : http_body).

(** The part of the world that adapters (the producers handed to the
    cache) can touch: configuration, clock, random source and network. *)
Record Upstream : Type := MkUpstream {
  env : gmap string string;      (* process.env *)
  clock : nat -> Z;              (* successive clock readings, in ms *)
  ticks : nat;                   (* readings taken so far *)
  random : nat -> Q;             (* successive Math.random() results *)
  draws : nat;
  http : nat -> http_result;     (* outcome of successive axios requests *)
  calls : nat
}.

Definition Adapter (A : Type) : Type := M Upstream A.

(** [Date.now()] / [new Date()] *)
Definition date_now : Adapter Z :=
  fun u => (Ok (clock u (ticks u)),
            MkUpstream (env u) (clock u) (S (ticks u)) (random u) (draws u)
                       (http u) (calls u)).

(** [Math.random()] *)
Definition math_random : Adapter Q :=
  fun u => (Ok (random u (draws u)),
            MkUpstream (env u) (clock u) (ticks u) (random u) (S (draws u))
                       (http u) (calls u)).

(** [await axios.get(...)] / [await axios.post(...)]: a failed request
    rejects with an error carrying the transport's message. *)
Definition axios_request : Adapter http_body :=
  fun u =>
    let u' := MkUpstream (env u) (clock u) (ticks u) (random u) (draws u)
                         (http u) (S (calls u)) in
    match http u (calls u) with
    | HttpOk b => (Ok b, u')
    | HttpErr msg => (Throw (Error msg), u')
    end.

Definition getenv (name : string) : Adapter (option string) :=
  gets (fun u => env u !! name).

(** The reading the next [Date.now()] will return. *)
Definition now_of (u : Upstream) : Z := clock u (ticks u).

(** ** The database and the Supabase client (services/supabase.js) *)

Module Supabase.

(** A row of the [cache] table ([key text PRIMARY KEY, value jsonb,
    expires_at timestamptz]); the key is the key of the map.  Timestamps
    are milliseconds since the epoch. *)
Record cache_entry : Type := MkEntry { value : json; expires_at : Z }.

(** A row of the [disasters] table. *)
Record audit_entry : Type := MkAudit {
  action : string; audit_user_id : string; audit_timestamp : Z }.

Record disaster : Type := MkDisaster {
  title : string;
  location_name : string;
  description : option string;
  tags : list string;
  location : option (Q * Q);           (* POINT(lon lat) *)
  owner_id : string;
  audit_trail : list audit_entry
}.

(** The [error] object of a supabase-js response. *)
Record dberror : Type := MkDbError { code : string; message : string }.

(** PostgREST's answer to [.single()] when the result has no row. *)
Definition PGRST116 : dberror :=
  MkDbError "PGRST116" "JSON object requested, multiple (or no) rows returned".

(** The requests the code sends through a client. *)
Inductive query : Type :=
  | CacheSelectSingle (key : string)
  | CacheUpsert (key : string) (entry : cache_entry)
  | CacheDeleteLt (bound : Z)
  | DisasterSelectSingle (id : string)
  | DisasterUpdate (id : string) (d : disaster)
  | DisasterDelete (id : string).

(** What is recorded of a run: every request issued on a client (real or
    mock), and every invocation of a producer with its outcome. *)
Inductive event : Type :=
  | EvQuery (q : query)
  | EvFetch (r : Res json).

Inductive io_payload : Type :=
  | PDisaster (d : disaster)
  | PDisasterId (id : string).

(** [io.emit(channel, { type, ... })] *)
Record io_event : Type := MkEmit {
  channel : string; emit_type : string; payload : io_payload }.

(** The client made by [createClient(supabaseUrl, supabaseKey, ...)],
    which is taken to accept any URL and key that pass the test of
    [initializeSupabase]. *)
Record real_client : Type := MkClient { client_url : string; client_key : string }.

Record World : Type := MkWorld {
  up : Upstream;
  supabase : option real_client;        (* let supabase = null *)
  cache : gmap string cache_entry;      (* table cache *)
  disasters : gmap string disaster;     (* table disasters *)
  faults : nat -> option dberror;       (* failure of successive requests *)
  reqs : nat;                           (* requests sent so far *)
  trace : list event;
  emitted : list io_event
}.

Definition set_up (u : Upstream) (w : World) : World :=
  MkWorld u (supabase w) (cache w) (disasters w) (faults w) (reqs w)
          (trace w) (emitted w).
Definition set_supabase (c : option real_client) (w : World) : World :=
  MkWorld (up w) c (cache w) (disasters w) (faults w) (reqs w)
          (trace w) (emitted w).
Definition set_cache (t : gmap string cache_entry) (w : World) : World :=
  MkWorld (up w) (supabase w) t (disasters w) (faults w) (reqs w)
          (trace w) (emitted w).
Definition set_disasters (t : gmap string disaster) (w : World) : World :=
  MkWorld (up w) (supabase w) (cache w) t (faults w) (reqs w)
          (trace w) (emitted w).
Definition log (ev : event) (w : World) : World :=
  MkWorld (up w) (supabase w) (cache w) (disasters w) (faults w) (reqs w)
          (trace w ++ [ev]) (emitted w).
Definition emit (ev : io_event) (w : World) : World :=
  MkWorld (up w) (supabase w) (cache w) (disasters w) (faults w) (reqs w)
          (trace w) (emitted w ++ [ev]).

(** Run a computation of the upstream world inside the whole world. *)
Definition lift_up {A} (m : Adapter A) : M World A :=
  fun w => let '(r, u) := m (up w) in (r, set_up u w).

(** Send one request to the database: the next entry of [faults] says
    whether it gets through. *)
Definition send : M World (option dberror) :=
  fun w => (Ok (faults w (reqs w)),
            MkWorld (up w) (supabase w) (cache w) (disasters w) (faults w)
                    (S (reqs w)) (trace w) (emitted w)).

(** *** The mock client

    [createMockSupabaseClient] returns an object literal whose methods
    return further object literals and, at the leaves, resolved promises.
    [Obj] lists the methods an object has with what each returns;
    [Resolved] is [Promise.resolve({ data, error: null })]. *)
Inductive mock_data : Type :=
  | DataNull            (* data: null *)
  | DataEmpty           (* data: [] *)
  | DataRow             (* data: { id: 'mock-id-...', ...data, ... } *)
  | DataAbsent.         (* no data property *)

#[warnings="-register-all"]
Inductive mock_obj : Type :=
  | Obj (methods : list (string * mock_obj))
  | Resolved (d : mock_data).

Definition createMockSupabaseClient : mock_obj :=
  Obj [
    ("from", Obj [
      ("select", Obj [
        ("eq", Obj [
          ("single", Resolved DataNull);
          ("order", Obj [ ("range", Resolved DataEmpty) ]) ]);
        ("insert", Obj [
          ("select", Obj [ ("single", Resolved DataRow) ]) ]);
        ("update", Obj [
          ("eq", Obj [
            ("select", Obj [ ("single", Resolved DataRow) ]) ]) ]);
        ("delete", Obj [ ("eq", Resolved DataAbsent) ]);
        ("contains", Obj [
          ("order", Obj [ ("range", Resolved DataEmpty) ]) ]);
        ("filter", Obj [ ("order", Resolved DataEmpty) ]);
        ("not", Obj [ ("select", Resolved DataEmpty) ]);
        ("lt", Resolved DataAbsent);
        ("upsert", Resolved DataAbsent) ]) ]) ].

Fixpoint method (name : string) (ms : list (string * mock_obj)) : option mock_obj :=
  match ms with
  | [] => None
  | (n, o) :: rest => if String.eqb n name then Some o else method name rest
  end.

(** [o.name(...)]: calling a property that is not there is a TypeError. *)
Definition invoke (o : mock_obj) (name : string) : Res mock_obj :=
  match o with
  | Obj ms =>
      match method name ms with
      | Some r => Ok r
      | None => Throw (TypeError (name ++ " is not a function"))
      end
  | Resolved _ => Throw (TypeError (name ++ " is not a function"))
  end.

(** [o.n1(...).n2(...)...] *)
Fixpoint invoke_chain (o : mock_obj) (names : list string) : Res mock_obj :=
  match names with
  | [] => Ok o
  | n :: rest =>
      match invoke o n with
      | Ok o' => invoke_chain o' rest
      | Throw e => Throw e
      end
  end.

Inductive client : Type :=
  | RealClient (c : real_client)
  | MockClient (o : mock_obj).

(** *** Credentials *)

Definition url_placeholder : string := "your_supabase_url_here".
Definition key_placeholder : string := "your_supabase_service_role_key_here".

Definition differs (o : option string) (s : string) : bool :=
  match o with
  | Some x => negb (String.eqb x s)
  | None => true
  end.

(** [hasValidCredentials] of [initializeSupabase]: both settings present
    and neither a placeholder. *)
Definition hasValidCredentials (e : gmap string string) : bool :=
  truthy (e !! "SUPABASE_URL") && truthy (e !! "SUPABASE_SERVICE_ROLE_KEY")
  && differs (e !! "SUPABASE_URL") url_placeholder
  && differs (e !! "SUPABASE_SERVICE_ROLE_KEY") key_placeholder.

(** [hasValidCredentials] of [getOrSetCache], [findNearbyResources] and
    [cleanExpiredCache]: the URL alone. *)
Definition hasValidUrl (e : gmap string string) : bool :=
  truthy (e !! "SUPABASE_URL") && differs (e !! "SUPABASE_URL") url_placeholder.

Definition initializeSupabase : M World client :=
  s ← gets supabase;
  match s with
  | Some c => mret (RealClient c)
  | None =>
      e ← gets (fun w => env (up w));
      if negb (hasValidCredentials e) then
        mret (MockClient createMockSupabaseClient)
      else
        let c := MkClient (default "" (e !! "SUPABASE_URL"))
                          (default "" (e !! "SUPABASE_SERVICE_ROLE_KEY")) in
        _ ← modify (set_supabase (Some c));
        mret (RealClient c)
  end.

(** *** Requests on the [cache] table *)

(** A row as the caller sees it in [data]; [row_expires_at] is [None] when
    [data] is an object without a usable [expires_at], for which
    [new Date(data.expires_at)] is an invalid date. *)
Record row : Type := MkRow { row_value : json; row_expires_at : option Z }.

Record response : Type := MkResponse { data : option row; error : option dberror }.

(** [const { data, error } = await x] for a value of the mock client. *)
Definition await_mock (o : mock_obj) : response :=
  match o with
  | Resolved DataEmpty | Resolved DataRow =>
      MkResponse (Some (MkRow JNull None)) None
  | _ => MkResponse None None
  end.

Definition on_mock (o : mock_obj) (names : list string) : M World mock_obj :=
  fun w =>
    match invoke_chain o names with
    | Ok o' => (Ok o', w)
    | Throw e => (Throw e, w)
    end.

(** [client.from('cache').select('value, expires_at').eq('key', key).single()].
    On the real client a failed request and an absent row both come back
    as [{ data: null, error }]; nothing is thrown. *)
Definition cache_select_single (c : client) (key : string) : M World response :=
  match c with
  | RealClient _ =>
      _ ← modify (log (EvQuery (CacheSelectSingle key)));
      f ← send;
      match f with
      | Some e => mret (MkResponse None (Some e))
      | None =>
          t ← gets cache;
          match t !! key with
          | Some e => mret (MkResponse (Some (MkRow (value e) (Some (expires_at e)))) None)
          | None => mret (MkResponse None (Some PGRST116))
          end
      end
  | MockClient o =>
      r ← on_mock o ["from"; "select"; "eq"; "single"];
      _ ← modify (log (EvQuery (CacheSelectSingle key)));
      mret (await_mock r)
  end.

(** [client.from('cache').upsert({ key, value, expires_at })] *)
Definition cache_upsert (c : client) (key : string) (e : cache_entry)
  : M World response :=
  match c with
  | RealClient _ =>
      _ ← modify (log (EvQuery (CacheUpsert key e)));
      f ← send;
      match f with
      | Some err => mret (MkResponse None (Some err))
      | None =>
          _ ← modify (fun w => set_cache (<[key := e]> (cache w)) w);
          mret (MkResponse None None)
      end
  | MockClient o =>
      r ← on_mock o ["from"; "upsert"];
      _ ← modify (log (EvQuery (CacheUpsert key e)));
      mret (await_mock r)
  end.

(** The rows that [expires_at < bound] does not select. *)
Definition unexpired (bound : Z) (kv : string * cache_entry) : Prop :=
  ¬ (expires_at kv.2 < bound).

#[global] Instance unexpired_dec bound kv : Decision (unexpired bound kv) :=
  not_dec (Z.lt_dec (expires_at kv.2) bound).

(** [client.from('cache').delete().lt('expires_at', bound)] *)
Definition cache_delete_lt (c : client) (bound : Z) : M World response :=
  match c with
  | RealClient _ =>
      _ ← modify (log (EvQuery (CacheDeleteLt bound)));
      f ← send;
      match f with
      | Some err => mret (MkResponse None (Some err))
      | None =>
          _ ← modify (fun w => set_cache (filter (unexpired bound) (cache w)) w);
          mret (MkResponse None None)
      end
  | MockClient o =>
      r ← on_mock o ["from"; "delete"; "lt"];
      _ ← modify (log (EvQuery (CacheDeleteLt bound)));
      mret (await_mock r)
  end.

(** [client.from('cache').delete()], the receiver of [.lt(...)], which is
    evaluated before the argument [new Date().toISOString()]. *)
Definition cache_delete (c : client) : M World unit :=
  match c with
  | RealClient _ => mret tt
  | MockClient o => _ ← on_mock o ["from"; "delete"]; mret tt
  end.

(** [await fetcher()], recorded in the trace with its outcome. *)
Definition call_fetcher (fetcher : Adapter json) : M World json :=
  fun w =>
    let '(r, u) := fetcher (up w) in
    (r, log (EvFetch r) (set_up u w)).

(** *** getOrSetCache *)

Definition getOrSetCache (key : string) (fetcher : Adapter json)
    (ttlHours : option Z) : M World json :=
  let ttlHours := default 1 ttlHours in
  supabaseClient ← initializeSupabase;
  e ← gets (fun w => env (up w));
  if negb (hasValidUrl e) then
    call_fetcher fetcher
  else
    let miss : M World json :=
      fresh ← call_fetcher fetcher;
      now ← lift_up date_now;
      _ ← cache_upsert supabaseClient key
            (MkEntry fresh (now + ttlHours * 60 * 60 * 1000));
      mret fresh in
    r ← cache_select_single supabaseClient key;
    match data r with
    | Some d =>
        now ← lift_up date_now;
        match row_expires_at d with
        | Some exp => if bool_decide (now < exp) then mret (row_value d) else miss
        | None => miss
        end
    | None => miss
    end.

(** *** cleanExpiredCache *)

Definition cleanExpiredCache : M World unit :=
  supabaseClient ← initializeSupabase;
  e ← gets (fun w => env (up w));
  if negb (hasValidUrl e) then
    mret tt
  else
    _ ← cache_delete supabaseClient;
    now ← lift_up date_now;
    _ ← cache_delete_lt supabaseClient now;
    mret tt.

(** *** Reading a run *)

(** The events a run from [w] to [w'] added to the trace. *)
Definition since (w w' : World) : list event :=
  drop (length (trace w)) (trace w').

Definition is_fetch (ev : event) : bool :=
  match ev with EvFetch _ => true | EvQuery _ => false end.

Definition is_upsert (ev : event) : bool :=
  match ev with EvQuery (CacheUpsert _ _) => true | _ => false end.

(** How many times a producer was invoked. *)
Definition fetches (evs : list event) : nat :=
  length (List.filter is_fetch evs).

(** The time to live in milliseconds. *)
Definition ttl_ms (ttlHours : option Z) : Z := default 1 ttlHours * 60 * 60 * 1000.

(** The table holds no entry for [k] that is still unexpired at the next
    clock reading. *)
Definition stale (w : World) (k : string) : Prop :=
  match cache w !! k with
  | Some e => expires_at e <= now_of (up w)
  | None => True
  end.

End Supabase.

(** ** Social-media adapters (routes/socialMedia.js) *)

Module SocialMedia.

Definition num (z : Z) : json := JNum (inject_Z z).

(** One element of the array built by [generateMockSocialMediaPosts]: the
    clock is read for [id] and again for [timestamp]. *)
Definition mock_post (n platform content author : string) (author_verified : bool)
    (age likes retweets replies : Z) (location : string) (verified : bool)
  : Adapter json :=
  t_id ← date_now;
  t ← date_now;
  mret (JObj [
    ("id", JStr ("post_" ++ pretty t_id ++ "_" ++ n));
    ("platform", JStr platform);
    ("content", JStr content);
    ("author", JStr author);
    ("author_verified", JBool author_verified);
    ("timestamp", JDate (t - age));
    ("engagement", JObj [("likes", num likes); ("retweets", num retweets);
                         ("replies", num replies)]);
    ("location", JStr location);
    ("verified", JBool verified) ]).

Definition generateMockSocialMediaPosts (disasterId : option string)
    (platform : string) : Adapter json :=
  p1 ← mock_post "1" platform
         "Heavy flooding reported in the downtown area. Emergency services are responding."
         "@local_reporter" true 300000 45 12 8 "Downtown Area" true;
  p2 ← mock_post "2" platform
         "Just saw emergency vehicles heading towards the affected area. Stay safe everyone!"
         "@concerned_citizen" false 600000 23 5 3 "Near Main Street" false;
  p3 ← mock_post "3" platform
         "Official evacuation order issued for residents in flood-prone areas. Please follow instructions."
         "@city_emergency" true 900000 156 89 23 "City Hall" true;
  mret (JArr [p1; p2; p3]).

(** [Math.floor(Math.random() * n)] *)
Definition random_below (n : Z) : Adapter json :=
  r ← math_random;
  mret (num (Qfloor (r * inject_Z n))).

(** The callback of [response.data.data.map(...)]. *)
Definition tweet_post (t : tweet) : Adapter json :=
  likes ← random_below 100;
  retweets ← random_below 50;
  replies ← random_below 20;
  mret (JObj [
    ("id", JStr (tweet_id t));
    ("platform", JStr "twitter");
    ("content", JStr (tweet_text t));
    ("author", JStr ("@user_" ++ tweet_id t));
    ("author_verified", JBool false);
    ("timestamp", JStr (tweet_created_at t));
    ("engagement", JObj [("likes", likes); ("retweets", retweets);
                         ("replies", replies)]);
    ("verified", JBool false) ]).

Fixpoint map_adapter {A B} (f : A -> Adapter B) (l : list A) : Adapter (list B) :=
  match l with
  | [] => mret []
  | x :: rest => y ← f x; ys ← map_adapter f rest; mret (y :: ys)
  end.

Definition fetchTwitterPosts (query : string) : Adapter json :=
  try_catch
    (body ← axios_request;
     match body with
     | BodyTweets tweets => posts ← map_adapter tweet_post tweets; mret (JArr posts)
     | _ => throw (TypeError "Cannot read properties of undefined (reading 'map')")
     end)
    (fun error => generateMockSocialMediaPosts None "twitter").

Definition officialSources : list (string * string) :=
  [ ("fema", "https://www.fema.gov/news-disasters");
    ("redcross", "https://www.redcross.org/about-us/news-and-events/news.html");
    ("weather", "https://www.weather.gov/news") ].

(** Names an object literal inherits from [Object.prototype]; indexing
    with one of them yields a function or object, not a URL. *)
Definition inherited : list string :=
  [ "constructor"; "__proto__"; "hasOwnProperty"; "isPrototypeOf";
    "propertyIsEnumerable"; "toLocaleString"; "toString"; "valueOf";
    "__defineGetter__"; "__defineSetter__"; "__lookupGetter__";
    "__lookupSetter__" ].

Fixpoint assoc (name : string) (l : list (string * string)) : option string :=
  match l with
  | [] => None
  | (n, v) :: rest => if String.eqb n name then Some v else assoc name rest
  end.

(** [officialSources[source] || officialSources.fema]; [JNull] stands for
    an inherited member, which is truthy and no string. *)
Definition sourceUrl (source : option string) : json :=
  let key := default "undefined" source in
  match assoc key officialSources with
  | Some url => JStr url
  | None =>
      if bool_decide (key ∈ inherited) then JNull
      else JStr "https://www.fema.gov/news-disasters"
  end.

Definition nonempty (s : string) : bool := negb (String.eqb s "").

(** [title && content]: the element yields an update. *)
Definition extractable (el : element) : bool :=
  nonempty (el_title el) && nonempty (el_content el).

(** The body of [.each((i, element) => ...)]: elements without a title
    or without content are skipped; the others read the clock for [id]
    and, when the element has no date, once more for [timestamp]. *)
Fixpoint collect (source : option string) (url : json) (els : list element)
    (i : nat) : Adapter (list json) :=
  match els with
  | [] => mret []
  | el :: rest =>
      if extractable el then
        t_id ← date_now;
        ts ← (if nonempty (el_time el) then mret (JStr (el_time el))
              else t ← date_now; mret (JDate t));
        updates ← collect source url rest (S i);
        mret (JObj [
                ("id", JStr ("update_" ++ pretty t_id ++ "_" ++ pretty i));
                ("source", JStr (or_else source "official"));
                ("title", JStr (el_title el));
                ("content", JStr (String.substring 0 500 (el_content el)));
                ("timestamp", ts);
                ("priority", JStr "medium");
                ("url", url) ] :: updates)
      else collect source url rest (S i)
  end.

Definition generateMockOfficialUpdates (source : option string) : Adapter json :=
  id1 ← date_now;
  t1 ← date_now;
  id2 ← date_now;
  t2 ← date_now;
  id3 ← date_now;
  t3 ← date_now;
  mret (JArr [
    JObj [
      ("id", JStr ("update_" ++ pretty id1 ++ "_1"));
      ("source", JStr (or_else source "City Emergency Management"));
      ("title", JStr "Evacuation Order Issued");
      ("content", JStr "Residents in affected areas are ordered to evacuate immediately. Emergency shelters are open at the following locations...");
      ("timestamp", JDate t1);
      ("priority", JStr "high");
      ("url", JStr "#") ];
    JObj [
      ("id", JStr ("update_" ++ pretty id2 ++ "_2"));
      ("source", JStr (or_else source "National Weather Service"));
      ("title", JStr "Severe Weather Warning Extended");
      ("content", JStr "The severe weather warning has been extended for the next 6 hours. Heavy rainfall and flooding expected.");
      ("timestamp", JDate (t2 - 1800000));
      ("priority", JStr "high");
      ("url", JStr "#") ];
    JObj [
      ("id", JStr ("update_" ++ pretty id3 ++ "_3"));
      ("source", JStr (or_else source "Red Cross"));
      ("title", JStr "Emergency Response Team Deployed");
      ("content", JStr "Red Cross emergency response teams have been deployed to provide assistance to affected communities.");
      ("timestamp", JDate (t3 - 3600000));
      ("priority", JStr "medium");
      ("url", JStr "#") ] ]).

(** The elements cheerio finds in the response; a body that is no HTML
    page has none. *)
Definition matched (body : http_body) : list element :=
  match body with
  | BodyHtml els => els
  | _ => []
  end.

Definition scrapeOfficialUpdates (source : option string) : Adapter json :=
  let url := sourceUrl source in
  try_catch
    (body ← axios_request;
     updates ← collect source url (matched body) 0;
     if bool_decide (length updates = 0%nat) then
       generateMockOfficialUpdates source
     else
       mret (JArr (take 10 updates)))
    (fun error => generateMockOfficialUpdates source).

(** The upstream world once the pending request has been made. *)
Definition after_request (u : Upstream) : Upstream := (axios_request u).2.

(** The Twitter request fails in transport, or its body is not the
    expected list of tweets. *)
Definition twitter_fails (u : Upstream) : Prop :=
  match http u (calls u) with
  | HttpOk (BodyTweets _) => False
  | _ => True
  end.

(** The page request fails in transport. *)
Definition scrape_fails (u : Upstream) : Prop :=
  match http u (calls u) with
  | HttpErr _ => True
  | HttpOk _ => False
  end.

(** The property names of an official update, in order. *)
Definition update_keys : list string :=
  [ "id"; "source"; "title"; "content"; "timestamp"; "priority"; "url" ].

End SocialMedia.

(** ** Geocoding adapter (routes/geocode.js) *)

Module Geocode.

(** The two quote characters, double (code 34) and single. *)
Definition is_quote (a : ascii) : bool :=
  Ascii.eqb a (ascii_of_nat 34) || Ascii.eqb a "'"%char.

Definition is_space (a : ascii) : bool :=
  Ascii.eqb a " "%char || Ascii.eqb a "009"%char || Ascii.eqb a "010"%char
  || Ascii.eqb a "013"%char.

Fixpoint drop_while (p : ascii -> bool) (s : string) : string :=
  match s with
  | String a rest => if p a then drop_while p rest else s
  | EmptyString => EmptyString
  end.

(** [s.trim()], for the ASCII white space. *)
Definition trim (s : string) : string :=
  String.rev (drop_while is_space (String.rev (drop_while is_space s))).

Definition drop_first (p : ascii -> bool) (s : string) : string :=
  match s with
  | String a rest => if p a then rest else s
  | EmptyString => EmptyString
  end.

(** The [replace] of [extractLocationWithGemini]: one quote character
    is removed at the start and one at the end, when present. *)
Definition strip_quotes (s : string) : string :=
  String.rev (drop_first is_quote (String.rev (drop_first is_quote s))).

Definition extractLocationWithGemini (text apiKey : string) : Adapter string :=
  try_catch
    (body ← axios_request;
     match body with
     | BodyGemini answer => mret (strip_quotes (trim answer))
     | _ => throw (TypeError "Cannot read properties of undefined (reading '0')")
     end)
    (fun error => throw (Error "Failed to extract location with Gemini API")).

Record coordinates : Type := MkCoordinates { lat : Q; lon : Q; confidence : Q }.

(** [x || 0.8] on numbers. *)
Definition or_default (x : Q) : Q := if Qeq_bool x 0 then 8 # 10 else x.

Definition geocodeWithMapbox (locationName token : string) : Adapter coordinates :=
  try_catch
    (body ← axios_request;
     match body with
     | BodyMapbox (f :: _) =>
         mret (MkCoordinates (center_lat f) (center_lon f) (or_default (relevance f)))
     | _ => throw (Error ("No coordinates found for location: " ++ locationName))
     end)
    (fun error => throw (Error "Failed to geocode with Mapbox API")).

(** The mock result, returned when a key is not configured. *)
Definition mock_result : json :=
  JObj [ ("location_name", JStr "Mock Location (API keys not configured)");
         ("lat", JNum (407589 # 10000));
         ("lon", JNum (- 739851 # 10000));
         ("confidence", JNum (5 # 10)) ].

Definition performGeocoding (text : string) : Adapter json :=
  geminiApiKey ← getenv "GEMINI_API_KEY";
  mapboxToken ← getenv "MAPBOX_TOKEN";
  if negb (truthy geminiApiKey) || negb (truthy mapboxToken) then
    mret mock_result
  else
    try_catch
      (locationName ← extractLocationWithGemini text (default "" geminiApiKey);
       c ← geocodeWithMapbox locationName (default "" mapboxToken);
       mret (JObj [ ("location_name", JStr locationName);
                    ("lat", JNum (lat c));
                    ("lon", JNum (lon c));
                    ("confidence", JNum (or_default (confidence c))) ]))
      (fun error => throw (Error ("Geocoding failed: " ++ emessage error))).

(** Both keys are configured. *)
Definition configured (u : Upstream) : Prop :=
  truthy (env u !! "GEMINI_API_KEY") = true
  /\ truthy (env u !! "MAPBOX_TOKEN") = true.

(** The request to Gemini fails in transport or in parsing. *)
Definition gemini_fails (u : Upstream) : Prop :=
  match http u (calls u) with
  | HttpOk (BodyGemini _) => False
  | _ => True
  end.

(** The request to Gemini succeeds and the one to Mapbox, which follows
    it, fails or finds no feature. *)
Definition mapbox_fails (u : Upstream) : Prop :=
  match http u (calls u), http u (S (calls u)) with
  | HttpOk (BodyGemini _), HttpOk (BodyMapbox (_ :: _)) => False
  | HttpOk (BodyGemini _), _ => True
  | _, _ => False
  end.

End Geocode.

(** ** The resources router (routes/resources.js) *)

Module Resources.

Inductive method : Type := GET | HEAD | POST | PUT | DELETE.

(** A segment of a route path: literal text or a named parameter. *)
Inductive segment : Type :=
  | Lit (s : string)
  | Param (name : string).

Inductive handler : Type :=
  | CreateResource      (* POST   /       *)
  | ListResources       (* GET    /       *)
  | GetResource         (* GET    /:id    *)
  | UpdateResource      (* PUT    /:id    *)
  | DeleteResource      (* DELETE /:id    *)
  | NearbyResources     (* GET    /nearby *)
  | ResourceTypes       (* GET    /types  *)
  | BulkCreate.         (* POST   /bulk   *)

Record route : Type := MkRoute {
  route_method : method; route_path : list segment; route_handler : handler }.

(** The routes in the order of their registration.  Every handler ends
    the request, with a response or with [next(error)]; none passes it
    on with a bare [next()]. *)
Definition router : list route :=
  [ MkRoute POST [] CreateResource;
    MkRoute GET [] ListResources;
    MkRoute GET [Param "id"] GetResource;
    MkRoute PUT [Param "id"] UpdateResource;
    MkRoute DELETE [Param "id"] DeleteResource;
    MkRoute GET [Lit "nearby"] NearbyResources;
    MkRoute GET [Lit "types"] ResourceTypes;
    MkRoute POST [Lit "bulk"] BulkCreate ].

(** The pieces of a path between its slashes: ["/a/b"] gives
    [""; "a"; "b"]. *)
Fixpoint pieces (s : string) : list string :=
  match s with
  | EmptyString => [EmptyString]
  | String a rest =>
      if Ascii.eqb a "/"%char then EmptyString :: pieces rest
      else
        match pieces rest with
        | p :: ps => String a p :: ps
        | [] => [String a EmptyString]
        end
  end.

Fixpoint drop_trailing_empty (l : list string) : list string :=
  match l with
  | [] => []
  | [p] => if String.eqb p "" then [] else [p]
  | p :: rest => p :: drop_trailing_empty rest
  end.

(** The segments of a request path, relative to the mount point; one
    trailing slash is allowed (routing is not strict). *)
Definition segments (path : string) : option (list string) :=
  match pieces path with
  | p :: rest => if String.eqb p "" then Some (drop_trailing_empty rest) else None
  | [] => None
  end.

Definition lower (a : ascii) : ascii :=
  let n := nat_of_ascii a in
  if (65 <=? n)%nat && (n <=? 90)%nat then ascii_of_nat (n + 32) else a.

Fixpoint lowercase (s : string) : string :=
  match s with
  | EmptyString => EmptyString
  | String a rest => String (lower a) (lowercase rest)
  end.

(** Matching of a route path against the segments of a request: literals
    compare without regard to case, a parameter takes one non-empty
    segment. *)
Fixpoint match_path (pat : list segment) (segs : list string)
  : option (list (string * string)) :=
  match pat, segs with
  | [], [] => Some []
  | Lit s :: pat', x :: segs' =>
      if String.eqb (lowercase s) (lowercase x) then match_path pat' segs' else None
  | Param name :: pat', x :: segs' =>
      if String.eqb x "" then None
      else
        match match_path pat' segs' with
        | Some params => Some ((name, x) :: params)
        | None => None
        end
  | _, _ => None
  end.

(** A route registered with [router.get] also serves HEAD. *)
Definition handles_method (r : method) (m : method) : bool :=
  match r, m with
  | GET, GET | GET, HEAD | HEAD, HEAD | POST, POST | PUT, PUT | DELETE, DELETE => true
  | _, _ => false
  end.

Fixpoint first_match (rs : list route) (m : method) (segs : list string)
  : option (handler * list (string * string)) :=
  match rs with
  | [] => None
  | r :: rest =>
      if handles_method (route_method r) m then
        match match_path (route_path r) segs with
        | Some params => Some (route_handler r, params)
        | None => first_match rest m segs
        end
      else first_match rest m segs
  end.

(** The handler that serves a request, with [req.params]. *)
Definition dispatch (m : method) (path : string)
  : option (handler * list (string * string)) :=
  match segments path with
  | Some segs => first_match router m segs
  | None => None
  end.

End Resources.

(** ** Mock authentication (middleware/auth.js) *)

Module Auth.

Record user : Type := MkUser { id : string; role : string }.

Definition mockUsers : list user :=
  [ MkUser "u1" "admin"; MkUser "u2" "contributor" ].

(** [l[i]] for a number [i] that is an integer; [undefined] out of range. *)
Definition index {A} (l : list A) (i : Z) : option A :=
  if bool_decide (i < 0) then None else l !! Z.to_nat i.

(** The value that [authMiddleware] stores in [req.user]. *)
Definition authMiddleware : Adapter (option user) :=
  r ← math_random;
  mret (index mockUsers (Qfloor (r * inject_Z (Z.of_nat (length mockUsers))))).

End Auth.

(** ** Ownership-checked operations (routes/disasters.js) *)

Module Disasters.
Import Supabase.

Inductive res_body : Type :=
  | BodyError (msg : string)        (* { error: msg } *)
  | BodyValidation                  (* { error: 'Validation failed', details } *)
  | BodyDisaster (d : disaster)     (* the row *)
  | BodyNone.                       (* send() *)

Record http_response : Type := MkHttp { status : nat; body : res_body }.

(** [errorHandler] of middleware/errorHandler.js; the errors thrown in
    the handlers below carry no [code]. *)
Definition errorHandler (err : jserror) : M World http_response :=
  e ← gets (fun w => env (up w));
  if String.eqb (ename err) "ValidationError" then
    mret (MkHttp 400 BodyValidation)
  else if String.eqb (ename err) "UnauthorizedError" then
    mret (MkHttp 401 (BodyError "Authentication required"))
  else if bool_decide (e !! "NODE_ENV" = Some "development") then
    mret (MkHttp 500 (BodyError (emessage err)))
  else
    mret (MkHttp 500 (BodyError "Internal server error")).

(** The request body accepted by [disasterSchema]. *)
Record disaster_input : Type := MkInput {
  in_title : string;
  in_location_name : string;
  in_description : option string;
  in_tags : option (list string);
  in_lat : option Q;
  in_lon : option Q
}.

(** [obj[name]] on a parsed JSON object: the last binding wins. *)
Fixpoint field (name : string) (fields : list (string * json)) : option json :=
  match fields with
  | [] => None
  | (n, v) :: rest =>
      match field name rest with
      | Some v' => Some v'
      | None => if String.eqb n name then Some v else None
      end
  end.

Definition bounded_string (lo hi : nat) (j : option json) : option string :=
  match j with
  | Some (JStr s) =>
      if (lo <=? String.length s)%nat && (String.length s <=? hi)%nat
      then Some s else None
  | _ => None
  end.

Definition bounded_number (lo hi : Q) (j : json) : option Q :=
  match j with
  | JNum q => if Qle_bool lo q && Qle_bool q hi then Some q else None
  | _ => None
  end.

Fixpoint strings (l : list json) : option (list string) :=
  match l with
  | [] => Some []
  | JStr s :: rest =>
      match strings rest with
      | Some ss => Some (s :: ss)
      | None => None
      end
  | _ :: _ => None
  end.

(** [z.x().optional()]: an absent field passes, a present one is checked. *)
Definition optional {A} (check : json -> option A) (j : option json)
  : option (option A) :=
  match j with
  | None => Some None
  | Some v =>
      match check v with
      | Some a => Some (Some a)
      | None => None
      end
  end.

(** [disasterSchema.parse(...)]; [None] when it throws. *)
Definition parse_disaster (b : json) : option disaster_input :=
  match b with
  | JObj fs =>
      t ← bounded_string 1 200 (field "title" fs);
      l ← bounded_string 1 200 (field "location_name" fs);
      d ← optional (fun j => match j with JStr s => Some s | _ => None end)
            (field "description" fs);
      g ← optional (fun j => match j with JArr a => strings a | _ => None end)
            (field "tags" fs);
      la ← optional (bounded_number (- 90 # 1) (90 # 1)) (field "lat" fs);
      lo ← optional (bounded_number (- 180 # 1) (180 # 1)) (field "lon" fs);
      Some (MkInput t l d g la lo)
  | _ => None
  end.

Record disaster_response : Type := MkDisasterResponse {
  ddata : option disaster; derror : option dberror }.

(** [client.from('disasters').select('*').eq('id', id).single()] *)
Definition select_single (c : client) (id : string) : M World disaster_response :=
  match c with
  | RealClient _ =>
      _ ← modify (log (EvQuery (DisasterSelectSingle id)));
      f ← send;
      match f with
      | Some e => mret (MkDisasterResponse None (Some e))
      | None =>
          t ← gets disasters;
          match t !! id with
          | Some d => mret (MkDisasterResponse (Some d) None)
          | None => mret (MkDisasterResponse None (Some PGRST116))
          end
      end
  | MockClient o =>
      r ← on_mock o ["from"; "select"; "eq"; "single"];
      _ ← modify (log (EvQuery (DisasterSelectSingle id)));
      mret (MkDisasterResponse None None)
  end.

(** [client.from('disasters').update(d).eq('id', id).select().single()] *)
Definition update (c : client) (id : string) (d : disaster)
  : M World disaster_response :=
  match c with
  | RealClient _ =>
      _ ← modify (log (EvQuery (DisasterUpdate id d)));
      f ← send;
      match f with
      | Some e => mret (MkDisasterResponse None (Some e))
      | None =>
          t ← gets disasters;
          match t !! id with
          | Some _ =>
              _ ← modify (fun w => set_disasters (<[id := d]> (disasters w)) w);
              mret (MkDisasterResponse (Some d) None)
          | None => mret (MkDisasterResponse None (Some PGRST116))
          end
      end
  | MockClient o =>
      r ← on_mock o ["from"; "update"; "eq"; "select"; "single"];
      _ ← modify (log (EvQuery (DisasterUpdate id d)));
      mret (MkDisasterResponse None None)
  end.

(** [client.from('disasters').delete().eq('id', id)] *)
Definition delete_row (c : client) (id : string) : M World disaster_response :=
  match c with
  | RealClient _ =>
      _ ← modify (log (EvQuery (DisasterDelete id)));
      f ← send;
      match f with
      | Some e => mret (MkDisasterResponse None (Some e))
      | None =>
          _ ← modify (fun w => set_disasters (delete id (disasters w)) w);
          mret (MkDisasterResponse None None)
      end
  | MockClient o =>
      r ← on_mock o ["from"; "delete"; "eq"];
      _ ← modify (log (EvQuery (DisasterDelete id)));
      mret (MkDisasterResponse None None)
  end.

Definition nonzero (q : option Q) : bool :=
  match q with
  | Some x => negb (Qeq_bool x 0)
  | None => false
  end.

(** The first part of both handlers: fetch the row, answer 404 when it
    is not there, and check ownership.  [inr d] lets the handler go on
    with the row; [inl r] is the response already sent. *)
Definition fetch_owned (c : client) (user : option Auth.user) (id : string)
  : M World (http_response + disaster) :=
  r ← select_single c id;
  match derror r with
  | Some fetchError =>
      if String.eqb (code fetchError) "PGRST116" then
        mret (inl (MkHttp 404 (BodyError "Disaster not found")))
      else throw (Error ("Failed to fetch disaster: " ++ message fetchError))
  | None =>
      match ddata r, user with
      | None, _ =>
          throw (TypeError "Cannot read properties of null (reading 'owner_id')")
      | Some _, None =>
          throw (TypeError "Cannot read properties of undefined (reading 'id')")
      | Some existing, Some u =>
          if negb (String.eqb (owner_id existing) (Auth.id u))
             && negb (String.eqb (Auth.role u) "admin") then
            mret (inl (MkHttp 403 (BodyError "Insufficient permissions")))
          else mret (inr existing)
      end
  end.

(** The handler of [router.put('/:id', validate(disasterSchema), ...)],
    with [next(error)] followed into [errorHandler]. *)
Definition put_handler (c : client) (user : option Auth.user) (id : string)
    (b : disaster_input) : M World http_response :=
  try_catch
    (o ← fetch_owned c user id;
     match o with
     | inl r => mret r
     | inr existing =>
         let location :=
           if nonzero (in_lat b) && nonzero (in_lon b)
           then Some (default 0%Q (in_lon b), default 0%Q (in_lat b))
           else None in
         now ← lift_up date_now;
         let auditTrail :=
           (audit_trail existing
            ++ [MkAudit "updated" (from_option Auth.id "" user) now])%list in
         r ← update c id
               (MkDisaster (in_title b) (in_location_name b)
                  (match in_description b with
                   | Some d => Some d
                   | None => description existing
                   end)
                  (default [] (in_tags b)) location (owner_id existing) auditTrail);
         match derror r, ddata r with
         | Some e, _ => throw (Error ("Failed to update disaster: " ++ message e))
         | None, Some d =>
             _ ← modify (emit (MkEmit "disaster_updated" "updated" (PDisaster d)));
             mret (MkHttp 200 (BodyDisaster d))
         | None, None =>
             throw (TypeError "Cannot read properties of null")
         end
     end)
    errorHandler.

(** The handler of [router.delete('/:id', ...)]. *)
Definition delete_handler (c : client) (user : option Auth.user) (id : string)
  : M World http_response :=
  try_catch
    (o ← fetch_owned c user id;
     match o with
     | inl r => mret r
     | inr existing =>
         r ← delete_row c id;
         match derror r with
         | Some e => throw (Error ("Failed to delete disaster: " ++ message e))
         | None =>
             _ ← modify (emit (MkEmit "disaster_updated" "deleted" (PDisasterId id)));
             mret (MkHttp 204 BodyNone)
         end
     end)
    errorHandler.

(** A PUT /disasters/:id request through the application: the mock
    authentication, then validation, then the handler.  [c] is the client
    made at start-up and stored in [req.supabase]. *)
Definition put_request (c : client) (id : string) (b : json)
  : M World http_response :=
  user ← lift_up Auth.authMiddleware;
  match parse_disaster b with
  | Some input => put_handler c user id input
  | None => errorHandler (MkError "ValidationError" "Validation failed")
  end.

(** A DELETE /disasters/:id request through the application. *)
Definition delete_request (c : client) (id : string) : M World http_response :=
  user ← lift_up Auth.authMiddleware;
  delete_handler c user id.

(** The status code of the response, when the request was answered. *)
Definition status_of (run : Res http_response * World) : option nat :=
  match run.1 with
  | Ok r => Some (status r)
  | Throw _ => None
  end.

(** The same world with another source of random numbers. *)
Definition with_random (rnd : nat -> Q) (w : World) : World :=
  set_up (MkUpstream (env (up w)) (clock (up w)) (ticks (up w)) rnd
            (draws (up w)) (http (up w)) (calls (up w))) w.

(** Every draw lies in the range of [Math.random()]. *)
Definition unit_draws (rnd : nat -> Q) : Prop :=
  forall n, (0 <= rnd n)%Q /\ (rnd n < 1)%Q.

End Disasters.

(** ** Concrete worlds *)

Module Fixtures.
Import Supabase.

(** Both Supabase settings are configured. *)
Definition env_live : gmap string string :=
  <["SUPABASE_URL" := "https://db.example.supabase.co"]>
    (<["SUPABASE_SERVICE_ROLE_KEY" := "service-role-key"]> ∅).

(** The URL is configured and the service-role key is not. *)
Definition env_url_only : gmap string string :=
  <["SUPABASE_URL" := "https://db.example.supabase.co"]> ∅.

(** The geocoding keys are configured. *)
Definition env_keys : gmap string string :=
  <["GEMINI_API_KEY" := "gemini-key"]> (<["MAPBOX_TOKEN" := "mapbox-token"]> ∅).

(** A clock that advances half an hour between two readings. *)
Definition half_hours (n : nat) : Z := 1800000 * Z.of_nat n.

Definition network_down (n : nat) : http_result := HttpErr "connect ECONNREFUSED".

(** A page whose only article has no title. *)
Definition untitled_page (n : nat) : http_result :=
  HttpOk (BodyHtml [MkElement "" "Shelters are open." "2024-05-01"]).

Definition upstream0 (e : gmap string string) (net : nat -> http_result) : Upstream :=
  MkUpstream e half_hours 0 (fun _ => 0%Q) 0 net 0.

Definition unreachable : dberror := MkDbError "" "TypeError: fetch failed".

Definition no_faults (n : nat) : option dberror := None.
Definition all_fail (n : nat) : option dberror := Some unreachable.
Definition second_fails (n : nat) : option dberror :=
  if Nat.eqb n 1 then Some unreachable else None.

(** A freshly started process with an empty database. *)
Definition world0 (e : gmap string string) (f : nat -> option dberror) : World :=
  MkWorld (upstream0 e network_down) None ∅ ∅ f 0 [] [].

(** A producer whose value changes with the time of its invocation. *)
Definition producerA : Adapter json := t ← date_now; mret (JDate t).

Definition failing_producer : Adapter json := throw (Error "upstream down").

(** A cache table with one entry expired before the epoch and one that
    expires two hours after it. *)
Definition two_entries : gmap string cache_entry :=
  <["old" := MkEntry (JStr "a") (-5)]> (<["new" := MkEntry (JStr "b") 7200000]> ∅).

Definition world_two_entries : World :=
  MkWorld (upstream0 env_live network_down) None two_entries ∅ no_faults 0 [] [].

(** A disaster created by [u1], in a database the process is connected to. *)
Definition flood : disaster :=
  MkDisaster "Flood" "Manhattan" None [] None "u1" [MkAudit "created" "u1" 0].

Definition client0 : real_client :=
  MkClient "https://db.example.supabase.co" "service-role-key".

Definition world_flood : World :=
  MkWorld (upstream0 env_live network_down) (Some client0) ∅ (<["d1" := flood]> ∅)
          no_faults 0 [] [].

Definition flood_update : json :=
  JObj [ ("title", JStr "Flood"); ("location_name", JStr "Lower Manhattan") ].

Definition always (q : Q) (n : nat) : Q := q.

End Fixtures.

(** ** Cache keys (routes/geocode.js, routes/socialMedia.js) *)

Module Keys.

(** Six bits, the most significant first. *)
Definition sextet : Type := (bool * bool * bool * bool * bool * bool)%type.

Definition alphabet : string :=
  "ABCDEFGHIJKLMNOPQRSTUVWXYZabcdefghijklmnopqrstuvwxyz0123456789+/".

Definition bit (b : bool) : nat := if b then 1 else 0.

Definition sextet_value (s : sextet) : nat :=
  let '(b5, b4, b3, b2, b1, b0) := s in
  32 * bit b5 + 16 * bit b4 + 8 * bit b3 + 4 * bit b2 + 2 * bit b1 + bit b0.

Definition digit (s : sextet) : ascii :=
  default "A"%char (String.get (sextet_value s) alphabet).

(** The four sextets of three bytes; [Ascii] lists the bits of a byte
    from the least significant. *)
Definition sextet1 (a : ascii) : sextet :=
  let 'Ascii _ _ a2 a3 a4 a5 a6 a7 := a in (a7, a6, a5, a4, a3, a2).
Definition sextet2 (a b : ascii) : sextet :=
  let 'Ascii a0 a1 _ _ _ _ _ _ := a in
  let 'Ascii _ _ _ _ b4 b5 b6 b7 := b in (a1, a0, b7, b6, b5, b4).
Definition sextet3 (b c : ascii) : sextet :=
  let 'Ascii b0 b1 b2 b3 _ _ _ _ := b in
  let 'Ascii _ _ _ _ _ _ c6 c7 := c in (b3, b2, b1, b0, c7, c6).
Definition sextet4 (c : ascii) : sextet :=
  let 'Ascii c0 c1 c2 c3 c4 c5 _ _ := c in (c5, c4, c3, c2, c1, c0).

(** [Buffer.from(text).toString('base64')]: the standard alphabet, with
    padding.  A string stands for the UTF-8 bytes of the text. *)
Fixpoint base64 (s : string) : string :=
  match s with
  | EmptyString => EmptyString
  | String a EmptyString =>
      String (digit (sextet1 a)) (String (digit (sextet2 a Ascii.zero)) "==")
  | String a (String b EmptyString) =>
      String (digit (sextet1 a)) (String (digit (sextet2 a b))
        (String (digit (sextet3 b Ascii.zero)) "="))
  | String a (String b (String c rest)) =>
      String (digit (sextet1 a)) (String (digit (sextet2 a b))
        (String (digit (sextet3 b c)) (String (digit (sextet4 c)) (base64 rest))))
  end.






(** A value interpolated in a template literal. *)
Definition interpolate (o : option string) : string := default "undefined" o.

(** The key of POST /geocode. *)
Definition geocode_key (text : string) : string := "geocode:" ++ base64 text.

(** The key of GET /social-media/twitter. *)
Definition twitter_key (disaster_id query : option string) : string :=
  "twitter:" ++ interpolate disaster_id ++ ":" ++ interpolate query.

(** The key of GET /social-media/official-updates. *)
Definition official_updates_key (disaster_id source : option string) : string :=
  "official_updates:" ++ interpolate disaster_id ++ ":" ++ interpolate source.

End Keys.

(** ** Post verification (routes/socialMedia.js) *)

Module Verification.

(** [hay.includes(needle)] *)
Fixpoint includes (needle hay : string) : bool :=
  String.prefix needle hay
  || match hay with
     | EmptyString => false
     | String _ rest => includes needle rest
     end.

Record verification : Type := MkVerification {
  verified : bool; confidence : Q; analysis : string }.

(** The keywords are ASCII, for which [toLowerCase] changes the letters
    A to Z only. *)
Definition hasKeywords (content : string) : bool :=
  let lower := Resources.lowercase content in
  includes "emergency" lower || includes "disaster" lower
  || includes "flood" lower || includes "fire" lower.

(** [content] and [imageUrl] are as found in the request body. *)
Definition verifySocialMediaPost (content imageUrl : option string)
  : Adapter verification :=
  match content with
  | None =>
      throw (TypeError "Cannot read properties of undefined (reading 'toLowerCase')")
  | Some text =>
      let keywords := hasKeywords text in
      let hasImage := truthy imageUrl in
      let confidence : Q :=
        if keywords then (if hasImage then 8 # 10 else 6 # 10) else 3 # 10 in
      mret (MkVerification
              (match confidence ?= 5 # 10 with Gt => true | _ => false end)%Q
              confidence
              ("Post contains "
               ++ (if keywords then "emergency-related keywords"
                   else "no emergency keywords")
               ++ (if hasImage then " and includes an image" else "")
               ++ ". Confidence score: "
               ++ (if keywords then (if hasImage then "0.8" else "0.6") else "0.3")))
  end.

End Verification.

(** ** Role check (middleware/auth.js) *)

Module Roles.
Import Disasters.

(** [requireRole(role)]: [None] when the middleware calls [next()]. *)
Definition requireRole (role : string) (user : option Auth.user)
  : option http_response :=
  match user with
  | None => Some (MkHttp 401 (BodyError "Authentication required"))
  | Some u =>
      if negb (String.eqb (Auth.role u) role)
         && negb (String.eqb (Auth.role u) "admin")
      then Some (MkHttp 403 (BodyError "Insufficient permissions"))
      else None
  end.

(** [authMiddleware] followed by [requireRole(role)]. *)
Definition authorize (role : string) : Adapter (option http_response) :=
  user ← Auth.authMiddleware;
  mret (requireRole role user).

End Roles.

(** ** Route handlers (routes/geocode.js, routes/socialMedia.js) *)

Module Routes.
Import Supabase Disasters.

(** What a handler sends: [res.json(body)], or the answer of
    [errorHandler] after [next(error)]. *)
Inductive reply : Type :=
  | Replied (status : nat) (body : json)
  | Failed (r : http_response).

Definition reply_status (r : reply) : nat :=
  match r with
  | Replied s _ => s
  | Failed h => status h
  end.

(** [try { res.json(await m) } catch (error) { next(error) }] *)
Definition json_route (m : M World json) : M World reply :=
  try_catch (j ← m; mret (Replied 200 j))
            (fun error => r ← errorHandler error; mret (Failed r)).

(** [geocodeSchema.parse(...)]; [None] when it throws. *)
Definition parse_geocode (b : json) : option string :=
  match b with
  | JObj fs => bounded_string 1 500 (field "text" fs)
  | _ => None
  end.

(** POST /geocode *)
Definition geocode_request (b : json) : M World reply :=
  match parse_geocode b with
  | Some text =>
      json_route
        (getOrSetCache (Keys.geocode_key text) (Geocode.performGeocoding text) None)
  | None =>
      r ← errorHandler (MkError "ValidationError" "Validation failed");
      mret (Failed r)
  end.


(** GET /social-media/twitter *)
Definition twitter_request (disaster_id query : option string) : M World reply :=
  json_route
    (twitterBearer ← lift_up (getenv "TWITTER_BEARER");
     if negb (truthy twitterBearer) then
       lift_up (SocialMedia.generateMockSocialMediaPosts disaster_id "twitter")
     else
       getOrSetCache (Keys.twitter_key disaster_id query)
         (SocialMedia.fetchTwitterPosts (or_else query "disaster emergency")) None).


(** GET /disasters/:id; [BodyNone] is also the [null] sent when the
    client returns no row and no error. *)
Definition get_handler (c : client) (id : string) : M World http_response :=
  try_catch
    (r ← select_single c id;
     match derror r with
     | Some e =>
         if String.eqb (code e) "PGRST116" then
           mret (MkHttp 404 (BodyError "Disaster not found"))
         else throw (Error ("Failed to fetch disaster: " ++ message e))
     | None =>
         match ddata r with
         | Some d => mret (MkHttp 200 (BodyDisaster d))
         | None => mret (MkHttp 200 BodyNone)
         end
     end)
    errorHandler.

End Routes.

(** ** Shapes of results *)

Module Shapes.

(** What every official update is: the seven properties, and a content
    of at most 500 characters. *)
Definition well_formed_update (j : json) : Prop :=
  keys j = SocialMedia.update_keys
  /\ match j with
     | JObj fs => exists s, Disasters.field "content" fs = Some (JStr s)
                            /\ (String.length s <= 500)%nat
     | _ => False
     end.

(** The property names of a post made of a tweet, in order. *)
Definition post_keys : list string :=
  [ "id"; "platform"; "content"; "author"; "author_verified"; "timestamp";
    "engagement"; "verified" ].

(** The post made of a tweet. *)
Definition post_of (t : tweet) (j : json) : Prop :=
  keys j = post_keys
  /\ match j with
     | JObj fs =>
         Disasters.field "id" fs = Some (JStr (tweet_id t))
         /\ Disasters.field "content" fs = Some (JStr (tweet_text t))
         /\ Disasters.field "timestamp" fs = Some (JStr (tweet_created_at t))
     | _ => False
     end.

(** The property names of a geocoding result, in order. *)
Definition geocode_keys : list string :=
  [ "location_name"; "lat"; "lon"; "confidence" ].

End Shapes.

(** ** Further concrete worlds *)

Module Scenarios.
Import Supabase Fixtures.

(** The store is configured, the geocoding keys are not. *)
Definition world_store_only : World := world0 env_live no_faults.

(** The store and the geocoding keys are configured; the network is down. *)
Definition env_all : gmap string string :=
  <["GEMINI_API_KEY" := "gemini-key"]> (<["MAPBOX_TOKEN" := "mapbox-token"]> env_live).

Definition world_all_down : World :=
  MkWorld (upstream0 env_all network_down) None ∅ ∅ no_faults 0 [] [].



(** Nothing is configured. *)
Definition world_bare : World := world0 ∅ no_faults.

Definition geocode_body : json := JObj [ ("text", JStr "Heavy flooding in Manhattan") ].

(** Gemini answers with a quoted name, Mapbox with one feature of
    relevance 0. *)
Definition geocoder_up (n : nat) : http_result :=
  match n with
  | O => HttpOk (BodyGemini " 'Manhattan, NYC' ")
  | _ => HttpOk (BodyMapbox [MkFeature (- 739712 # 10000) (407831 # 10000) 0 "Manhattan"])
  end.

(** Twitter answers with two tweets. *)
Definition twitter_up (n : nat) : http_result :=
  HttpOk (BodyTweets [ MkTweet "101" "Flood on 5th Avenue" "2024-05-01T10:00:00Z";
                       MkTweet "102" "Shelter open at City Hall" "2024-05-01T10:05:00Z" ]).

(** A page with twelve articles. *)
Definition article (n : nat) : element :=
  MkElement ("Update " ++ pretty n) "Roads are closed." "".

Definition long_page (n : nat) : http_result :=
  HttpOk (BodyHtml (article <$> seq 0 12)).

Definition contributor : Auth.user := Auth.MkUser "u2" "contributor".
Definition admin : Auth.user := Auth.MkUser "u1" "admin".

(** The database of [world_flood], out of reach. *)
Definition world_flood_down : World :=
  MkWorld (upstream0 env_live network_down) (Some client0) ∅ (<["d1" := flood]> ∅)
          all_fail 0 [] [].

Definition flood_input : Disasters.disaster_input :=
  Disasters.MkInput "Flood" "Lower Manhattan" None None None None.

End Scenarios.


(** * Properties of the cache-through wrapper *)

Section CacheThrough.
Import Supabase Fixtures.

Ltac unfold_monad :=
  unfold getOrSetCache, cleanExpiredCache, initializeSupabase, cache_select_single,
    cache_upsert, cache_delete_lt, cache_delete, call_fetcher, lift_up, on_mock,
    send, date_now, mbind, mret, M_bind, M_ret, bind, ret, throw, gets, modify,
    log, set_up, set_supabase, set_cache, since, stale, ttl_ms, now_of in *.

(** Case analysis along every branch of a run. *)
Ltac run_cases := repeat (case_match; simplify_eq/=).

(** A branch that needs the credentials to be invalid does not arise. *)
Ltac live_only Hlive Hurl :=
  try (rewrite ?Hlive, ?Hurl in *; simpl in *; congruence).

(** The events added by a run are the suffix after the old trace. *)
Ltac new_events :=
  rewrite <- ?(assoc_L (++)); rewrite ?drop_app_length, ?drop_all; simpl.
Ltac new_events_in H :=
  rewrite <- ?(assoc_L (++)) in H; rewrite ?drop_app_length, ?drop_all in H;
  simpl in H.

(** The comparison made by the run contradicts what is known of the entry. *)
Ltac by_clock :=
  try match goal with
      | H : bool_decide _ = _ |- _ =>
          first [apply bool_decide_eq_true in H | apply bool_decide_eq_false in H];
          simpl in *; lia
      end.

(** Credentials that satisfy [initializeSupabase] satisfy [getOrSetCache]. *)
Lemma valid_credentials_valid_url e :
  hasValidCredentials e = true -> hasValidUrl e = true.
Proof.
  unfold hasValidCredentials, hasValidUrl. intros H.
  repeat (apply andb_prop in H as [H ?]). by apply andb_true_intro.
Qed.

(** The converse fails: the URL alone passes the second test. *)
Lemma valid_url_without_key :
  hasValidUrl env_url_only = true /\ hasValidCredentials env_url_only = false.
Proof. split; reflexivity. Qed.

(** A run only appends to the trace. *)
Lemma trace_extends (w w' : World) k p ttl r :
  getOrSetCache k p ttl w = (r, w') ->
  trace w' = (trace w ++ since w w')%list.
Proof.
  intros Hrun. destruct w as [u s c d f n tr em].
  unfold_monad. simpl in *. run_cases.
  all: rewrite <- ?(assoc_L (++)); by rewrite drop_app_length.
Qed.

Lemma since_trans (w w1 w2 : World) :
  trace w1 = (trace w ++ since w w1)%list ->
  trace w2 = (trace w1 ++ since w1 w2)%list ->
  since w w2 = (since w w1 ++ since w1 w2)%list.
Proof.
  intros H1 H2. unfold since at 1. rewrite H2, H1 at 1.
  rewrite <- (assoc_L (++)). by rewrite drop_app_length.
Qed.

Lemma fetches_app l1 l2 : fetches (l1 ++ l2) = (fetches l1 + fetches l2)%nat.
Proof. unfold fetches. by rewrite List.filter_app, length_app. Qed.

(** A miss on a live store that answers: the producer runs once and its
    value is stored, expiring [ttl] after the clock reading of the write,
    which is the last reading the call takes. *)
Lemma miss_run (w w1 : World) k p ttl v :
  hasValidCredentials (env (up w)) = true ->
  faults w (reqs w) = None ->
  faults w (S (reqs w)) = None ->
  stale w k ->
  getOrSetCache k p ttl w = (Ok v, w1) ->
  fetches (since w w1) = 1%nat
  /\ cache w1 !! k
     = Some (MkEntry v (clock (up w1) (pred (ticks (up w1))) + ttl_ms ttl))
  /\ faults w1 = faults w /\ reqs w1 = S (S (reqs w)).
Proof.
  intros Hlive Hf1 Hf2 Hstale Hrun.
  pose proof (valid_credentials_valid_url _ Hlive) as Hurl.
  destruct w as [u s c d f n tr em]; simpl in *.
  unfold_monad. simpl in *.
  run_cases; live_only Hlive Hurl.
  all: new_events; by_clock.
  all: repeat split; try done; by rewrite lookup_insert_eq.
Qed.

(** A hit: the stored value comes back and the producer does not run. *)
Lemma hit_run (w w' : World) k p ttl e r :
  hasValidCredentials (env (up w)) = true ->
  faults w (reqs w) = None ->
  cache w !! k = Some e ->
  now_of (up w) < expires_at e ->
  getOrSetCache k p ttl w = (r, w') ->
  r = Ok (value e) /\ fetches (since w w') = 0%nat /\ cache w' = cache w.
Proof.
  intros Hlive Hf1 Hk Hfresh Hrun.
  pose proof (valid_credentials_valid_url _ Hlive) as Hurl.
  destruct w as [u s c d f n tr em]; simpl in *.
  unfold_monad. simpl in *.
  run_cases; live_only Hlive Hurl.
  all: new_events; by_clock.
  all: done.
Qed.

(** Without an unexpired entry the producer runs, whatever the store does. *)
Lemma stale_run (w w' : World) k p ttl r :
  stale w k ->
  getOrSetCache k p ttl w = (r, w') ->
  fetches (since w w') = 1%nat.
Proof.
  intros Hstale Hrun.
  destruct w as [u s c d f n tr em]; simpl in *.
  unfold_monad. simpl in *.
  run_cases.
  all: new_events; by_clock.
  all: done.
Qed.

(** With the URL absent or a placeholder the cache is bypassed: no request
    is issued, the table is untouched and the producer's outcome is the
    result. *)
Lemma bypass_without_url (w w' : World) k p ttl r :
  hasValidUrl (env (up w)) = false ->
  getOrSetCache k p ttl w = (r, w') ->
  since w w' = [EvFetch r] /\ cache w' = cache w
  /\ exists u', p (up w) = (r, u').
Proof.
  intros Hurl Hrun.
  destruct w as [u s c d f n tr em]; simpl in *.
  unfold_monad. simpl in *.
  run_cases; try (rewrite Hurl in *; discriminate).
  all: new_events; eauto.
Qed.

(** C1: with the store live and answering, a first call that finds no
    unexpired entry and a second call made before the stored expiry
    invoke the producer once between them, the second returning the
    stored value; a call made once the expiry is reached invokes it
    again. *)
Theorem ttl_correct (w w1 w2 w3 : World) k p ttl v r2 r3 :
  hasValidCredentials (env (up w)) = true ->
  hasValidCredentials (env (up w1)) = true ->
  faults w (reqs w) = None ->
  faults w (S (reqs w)) = None ->
  faults w (S (S (reqs w))) = None ->
  stale w k ->
  getOrSetCache k p ttl w = (Ok v, w1) ->
  getOrSetCache k p ttl w1 = (r2, w2) ->
  getOrSetCache k p ttl w2 = (r3, w3) ->
  let expiry := clock (up w1) (pred (ticks (up w1))) + ttl_ms ttl in
  now_of (up w1) < expiry ->
  expiry <= now_of (up w2) ->
  fetches (since w w2) = 1%nat /\ r2 = Ok v /\ fetches (since w2 w3) = 1%nat.
Proof.
  intros Hlive Hlive1 Hf0 Hf1 Hf2 Hstale Hrun1 Hrun2 Hrun3 expiry Hin Hout.
  destruct (miss_run _ _ _ _ _ _ Hlive Hf0 Hf1 Hstale Hrun1)
    as (Hn1 & Hk1 & Hfs & Hreqs).
  assert (Hf2' : faults w1 (reqs w1) = None) by (by rewrite Hfs, Hreqs).
  destruct (hit_run _ _ _ _ _ _ _ Hlive1 Hf2' Hk1 Hin Hrun2) as (Hr2 & Hn2 & Hc2).
  split; [|split; [exact Hr2|]].
  - rewrite (since_trans w w1 w2), fetches_app, Hn1, Hn2; eauto using trace_extends.
  - eapply stale_run; [|exact Hrun3].
    unfold stale. rewrite Hc2, Hk1. exact Hout.
Qed.

Lemma ttl_correct_witness :
  let w := world0 env_live no_faults in
  let run1 := getOrSetCache "geocode:abc" producerA None w in
  let run2 := getOrSetCache "geocode:abc" producerA None run1.2 in
  let run3 := getOrSetCache "geocode:abc" producerA None run2.2 in
  hasValidCredentials (env (up w)) = true
  /\ fetches (since w run2.2) = 1%nat
  /\ run2.1 = Ok (JDate 0)
  /\ fetches (since run2.2 run3.2) = 1%nat.
Proof.
  intros w run1 run2 run3. split; [vm_compute; reflexivity|].
  apply (ttl_correct w run1.2 run2.2 run3.2 "geocode:abc" producerA None
           (JDate 0) run2.1 run3.1).
  - vm_compute; reflexivity.
  - vm_compute; reflexivity.
  - vm_compute; reflexivity.
  - vm_compute; reflexivity.
  - vm_compute; reflexivity.
  - vm_compute; exact I.
  - vm_compute; reflexivity.
  - vm_compute; reflexivity.
  - vm_compute; reflexivity.
  - vm_compute; reflexivity.
  - vm_compute; discriminate.
Defined.

(** C3, as the code has it: when the store's get fails, the call goes on
    as for a miss.  The producer is invoked once and the result of the
    call is the producer's own outcome, never the storage error. *)
Theorem get_failure_is_a_miss (w w' : World) k p ttl r err :
  hasValidCredentials (env (up w)) = true ->
  faults w (reqs w) = Some err ->
  getOrSetCache k p ttl w = (r, w') ->
  (exists u', p (up w) = (r, u')) /\ fetches (since w w') = 1%nat.
Proof.
  intros Hlive Hfault Hrun.
  pose proof (valid_credentials_valid_url _ Hlive) as Hurl.
  destruct w as [u s c d f n tr em]; simpl in *.
  unfold_monad. simpl in *.
  run_cases; live_only Hlive Hurl.
  all: new_events; split; eauto.
Qed.

Lemma get_failure_is_a_miss_witness :
  let w := world0 env_live all_fail in
  let run := getOrSetCache "geocode:abc" producerA None w in
  faults w (reqs w) = Some unreachable
  /\ (exists u', producerA (up w) = (run.1, u'))
  /\ fetches (since w run.2) = 1%nat.
Proof.
  intros w run. split; [reflexivity|].
  apply (get_failure_is_a_miss w run.2 "geocode:abc" producerA None run.1 unreachable).
  - vm_compute; reflexivity.
  - vm_compute; reflexivity.
  - vm_compute; reflexivity.
Defined.

(** C3, as stated, fails: the store is configured, every request to it
    fails, and the call returns the producer's value after invoking it. *)
Lemma get_failure_not_surfaced :
  let w := world0 env_live all_fail in
  let run := getOrSetCache "geocode:abc" producerA None w in
  hasValidCredentials (env (up w)) = true
  /\ faults w (reqs w) = Some unreachable
  /\ run.1 = Ok (JDate 0)
  /\ since w run.2
     = [ EvQuery (CacheSelectSingle "geocode:abc");
         EvFetch (Ok (JDate 0));
         EvQuery (CacheUpsert "geocode:abc" (MkEntry (JDate 0) 5400000)) ]
  /\ ~ (exists e, run.1 = Throw e).
Proof.
  intros w run. repeat split; try (vm_compute; reflexivity).
  intros [e He]. vm_compute in He. discriminate He.
Qed.

(** C4 fails on the code when the URL is configured and the service-role
    key is not: [initializeSupabase] reports mock mode, yet the call
    queries the client, invokes the producer and then throws, because
    the mock client's [from] has no [upsert]. *)
Theorem bypass_misses_absent_key :
  let w := world0 env_url_only no_faults in
  let run := getOrSetCache "geocode:abc" producerA None w in
  hasValidCredentials (env (up w)) = false
  /\ (initializeSupabase w).1 = Ok (MockClient createMockSupabaseClient)
  /\ since w run.2
     = [ EvQuery (CacheSelectSingle "geocode:abc"); EvFetch (Ok (JDate 0)) ]
  /\ run.1 = Throw (TypeError "upsert is not a function").
Proof. intros w run. repeat split; vm_compute; reflexivity. Qed.

(** C6: when the producer throws, the call throws the same error, the
    cache table is unchanged and no upsert is issued. *)
Theorem producer_error_propagates (w w' : World) k p ttl r e :
  getOrSetCache k p ttl w = (r, w') ->
  In (EvFetch (Throw e)) (since w w') ->
  r = Throw e /\ cache w' = cache w
  /\ List.filter is_upsert (since w w') = [].
Proof.
  intros Hrun Hfetch.
  destruct w as [u s c d f n tr em].
  unfold_monad. simpl in *.
  run_cases.
  all: new_events_in Hfetch; new_events.
  all: intuition (simplify_eq; auto).
Qed.

Lemma producer_error_propagates_witness :
  let w := world0 env_live no_faults in
  let run := getOrSetCache "geocode:abc" failing_producer None w in
  In (EvFetch (Throw (Error "upstream down"))) (since w run.2)
  /\ run.1 = Throw (Error "upstream down")
  /\ cache run.2 = cache w
  /\ List.filter is_upsert (since w run.2) = [].
Proof.
  intros w run.
  assert (H : In (EvFetch (Throw (Error "upstream down"))) (since w run.2)).
  { vm_compute. right. left. reflexivity. }
  split; [exact H|].
  apply (producer_error_propagates w run.2 "geocode:abc" failing_producer None
           run.1 (Error "upstream down")).
  - vm_compute; reflexivity.
  - exact H.
Defined.

(** C7: on the live store, when the upsert that follows a successful
    producer fails, the call still returns the producer's value; nothing
    is written. *)
Theorem put_failure_is_not_fatal (w w' : World) k p ttl r v err :
  hasValidCredentials (env (up w)) = true ->
  getOrSetCache k p ttl w = (r, w') ->
  In (EvFetch (Ok v)) (since w w') ->
  faults w (S (reqs w)) = Some err ->
  r = Ok v /\ cache w' = cache w.
Proof.
  intros Hlive Hrun Hfetch Hfault.
  pose proof (valid_credentials_valid_url _ Hlive) as Hurl.
  destruct w as [u s c d f n tr em]; simpl in *.
  unfold_monad. simpl in *.
  run_cases; live_only Hlive Hurl.
  all: new_events_in Hfetch.
  all: intuition (simplify_eq; auto).
Qed.

Lemma put_failure_is_not_fatal_witness :
  let w := world0 env_live second_fails in
  let run := getOrSetCache "geocode:abc" producerA None w in
  faults w (S (reqs w)) = Some unreachable
  /\ run.1 = Ok (JDate 0) /\ cache run.2 = cache w.
Proof.
  intros w run. split; [reflexivity|].
  apply (put_failure_is_not_fatal w run.2 "geocode:abc" producerA None
           run.1 (JDate 0) unreachable).
  - vm_compute; reflexivity.
  - vm_compute; reflexivity.
  - vm_compute. right. left. reflexivity.
  - vm_compute; reflexivity.
Defined.

Lemma filter_unexpired_twice bound (m : gmap string cache_entry) :
  filter (unexpired bound) (filter (unexpired bound) m)
  = filter (unexpired bound) m.
Proof.
  apply map_eq. intros i. apply option_eq. intros x.
  rewrite !map_lookup_filter_Some. intuition.
Qed.

(** C8: on the live store, when the delete request gets through, a run
    of [cleanExpiredCache] that reads the clock at [now] leaves no entry
    with [expires_at < now], keeps every entry with [now <= expires_at]
    as it was, and a second run that reads the same instant changes
    nothing. *)
Theorem clean_expired_spec (w w' : World) r :
  hasValidCredentials (env (up w)) = true ->
  faults w (reqs w) = None ->
  cleanExpiredCache w = (r, w') ->
  let now := now_of (up w) in
  (forall k e, cache w' !! k = Some e -> ~ expires_at e < now)
  /\ (forall k e, cache w !! k = Some e -> now <= expires_at e ->
        cache w' !! k = Some e)
  /\ (forall r2 w2, faults w' (reqs w') = None -> now_of (up w') = now ->
        cleanExpiredCache w' = (r2, w2) -> cache w2 = cache w').
Proof.
  intros Hlive Hfault Hrun.
  pose proof (valid_credentials_valid_url _ Hlive) as Hurl.
  destruct w as [u s c d f n tr em]; simpl in *.
  unfold_monad. simpl in *.
  run_cases; live_only Hlive Hurl.
  all: repeat split.
  all: try (intros k e He; apply map_lookup_filter_Some in He as [_ He]; exact He).
  all: try (intros k e He Hle; apply map_lookup_filter_Some;
            split; [done | unfold unexpired; simpl; lia]).
  all: intros r2 w2 Hf2 Hnow Hrun2; simpl in *;
       rewrite ?Hlive, ?Hurl in Hrun2; simpl in Hrun2.
  all: try discriminate Hf2; rewrite ?Hf2 in Hrun2; simplify_eq/=.
  all: rewrite ?Hnow; apply filter_unexpired_twice.
Qed.

Lemma clean_expired_spec_witness :
  let w := world_two_entries in
  let run := cleanExpiredCache w in
  hasValidCredentials (env (up w)) = true
  /\ (forall k e, cache run.2 !! k = Some e -> ~ expires_at e < 0)
  /\ cache run.2 !! "new" = Some (MkEntry (JStr "b") 7200000).
Proof.
  intros w run.
  destruct (clean_expired_spec w run.2 run.1) as (Hgone & Hkept & _).
  - vm_compute; reflexivity.
  - vm_compute; reflexivity.
  - vm_compute; reflexivity.
  - split; [vm_compute; reflexivity|]. split.
    + exact Hgone.
    + apply Hkept; [vm_compute; reflexivity | vm_compute; discriminate].
Defined.

End CacheThrough.

(** * Properties of the external adapters *)

Section Adapters.
Import SocialMedia Geocode Fixtures.

Ltac unfold_adapter :=
  unfold try_catch, axios_request, date_now, math_random, getenv,
    mbind, mret, M_bind, M_ret, bind, ret, throw, gets in *.

(** The mock generators always return. *)
Lemma mock_posts_ok disasterId platform u :
  exists v u', generateMockSocialMediaPosts disasterId platform u = (Ok v, u').
Proof.
  unfold generateMockSocialMediaPosts, mock_post. unfold_adapter. simpl. eauto.
Qed.

(** The mock official updates: three objects with the seven properties. *)
Lemma mock_updates_shape source u :
  exists items u',
    generateMockOfficialUpdates source u = (Ok (JArr items), u')
    /\ length items = 3%nat
    /\ Forall (fun j => keys j = update_keys) items.
Proof.
  unfold generateMockOfficialUpdates. unfold_adapter. simpl.
  eexists _, _. split; [reflexivity|]. split; [reflexivity|].
  repeat constructor.
Qed.

Lemma mock_updates_ok source u :
  exists v u', generateMockOfficialUpdates source u = (Ok v, u').
Proof. destruct (mock_updates_shape source u) as (items & u' & H & _). eauto. Qed.

Lemma tweet_post_ok t u : exists j u', tweet_post t u = (Ok j, u').
Proof. unfold tweet_post, random_below. unfold_adapter. simpl. eauto. Qed.

Lemma tweet_posts_ok tweets u :
  exists posts u', map_adapter tweet_post tweets u = (Ok posts, u').
Proof.
  revert u. induction tweets as [|t tweets IH]; intros u; cbn [map_adapter].
  - eexists _, _. reflexivity.
  - unfold mbind, M_bind, bind.
    destruct (tweet_post_ok t u) as (j & u1 & ->).
    destruct (IH u1) as (posts & u' & ->). eauto.
Qed.

(** The loop over the matched elements never throws. *)
Lemma collect_ok source url els i u :
  exists updates u', collect source url els i u = (Ok updates, u').
Proof.
  revert i u. induction els as [|el els IH]; intros i u; cbn [collect].
  - eexists _, _. reflexivity.
  - destruct (extractable el); [|apply IH].
    unfold mbind, M_bind, bind, date_now.
    destruct (nonempty (el_time el)); cbn [mret M_ret ret];
    match goal with |- context [collect source url els ?j ?u1] =>
      destruct (IH j u1) as (updates & u' & ->) end; eauto.
Qed.

(** Elements that yield no update leave the list empty and the clock
    unread. *)
Lemma collect_none source url els i u :
  Forall (fun el => extractable el = false) els ->
  collect source url els i u = (Ok [], u).
Proof.
  intros H. revert i. induction H as [|el els Hel _ IH]; intros i; simpl.
  - reflexivity.
  - rewrite Hel. apply IH.
Qed.

Lemma twitter_never_throws query u :
  exists v u', fetchTwitterPosts query u = (Ok v, u').
Proof.
  unfold fetchTwitterPosts, try_catch, mbind, M_bind, bind, axios_request.
  destruct (http u (calls u)) as [msg|[tweets|?|?|?|]];
    try apply mock_posts_ok.
  match goal with |- context [map_adapter tweet_post tweets ?u1] =>
    destruct (tweet_posts_ok tweets u1) as (posts & u' & ->) end.
  cbn. eauto.
Qed.

Lemma scrape_never_throws source u :
  exists v u', scrapeOfficialUpdates source u = (Ok v, u').
Proof.
  unfold scrapeOfficialUpdates, try_catch, mbind, M_bind, bind, axios_request.
  destruct (http u (calls u)) as [msg|body]; try apply mock_updates_ok.
  match goal with |- context [collect source ?url ?els ?j ?u1] =>
    destruct (collect_ok source url els j u1) as (updates & u' & ->) end.
  case_bool_decide; [|cbn; eauto].
  destruct (mock_updates_ok source u') as (v & u'' & ->). eauto.
Qed.

(** C2, as the code has it: the Twitter and official-updates adapters
    never throw and answer a failed request with their mock payload; the
    geocoding adapter, once both keys are configured, throws
    [Geocoding failed: ...] when the Gemini or the Mapbox request fails. *)
Theorem adapters_on_failure (u : Upstream) (query text : string)
    (source : option string) :
  (exists v u', fetchTwitterPosts query u = (Ok v, u'))
  /\ (twitter_fails u ->
      fetchTwitterPosts query u
      = generateMockSocialMediaPosts None "twitter" (after_request u))
  /\ (exists v u', scrapeOfficialUpdates source u = (Ok v, u'))
  /\ (scrape_fails u ->
      scrapeOfficialUpdates source u
      = generateMockOfficialUpdates source (after_request u))
  /\ (configured u -> gemini_fails u ->
      exists u', performGeocoding text u
        = (Throw (Error "Geocoding failed: Failed to extract location with Gemini API"), u'))
  /\ (configured u -> mapbox_fails u ->
      exists u', performGeocoding text u
        = (Throw (Error "Geocoding failed: Failed to geocode with Mapbox API"), u')).
Proof.
  split; [apply twitter_never_throws|].
  split.
  { unfold twitter_fails, fetchTwitterPosts, after_request. unfold_adapter.
    destruct (http u (calls u)) as [msg|[tweets|?|?|?|]]; simpl; intros H; done. }
  split; [apply scrape_never_throws|].
  split.
  { unfold scrape_fails, scrapeOfficialUpdates, after_request. unfold_adapter.
    destruct (http u (calls u)) as [msg|body]; simpl; intros H; done. }
  split.
  - intros [Hg Hm].
    unfold gemini_fails, performGeocoding, extractLocationWithGemini.
    unfold_adapter. simpl. rewrite Hg, Hm. simpl.
    destruct (http u (calls u)) as [msg|[?|?|?|?|]]; simpl; intros H;
      try done; eauto.
  - intros [Hg Hm].
    unfold mapbox_fails, performGeocoding, extractLocationWithGemini,
      geocodeWithMapbox.
    unfold_adapter. simpl. rewrite Hg, Hm. simpl.
    destruct (http u (calls u)) as [msg|[?|?|?|?|]]; simpl; try done.
    destruct (http u (S (calls u))) as [msg|[?|?|[|f fs]|?|]]; simpl;
      intros H; try done; eauto.
Qed.

Lemma adapters_on_failure_witness :
  let u := upstream0 env_keys network_down in
  twitter_fails u /\ scrape_fails u /\ configured u /\ gemini_fails u
  /\ (exists v u', fetchTwitterPosts "flood" u = (Ok v, u'))
  /\ fetchTwitterPosts "flood" u
     = generateMockSocialMediaPosts None "twitter" (after_request u)
  /\ scrapeOfficialUpdates (Some "fema") u
     = generateMockOfficialUpdates (Some "fema") (after_request u)
  /\ exists u', performGeocoding "Flood in Manhattan" u
       = (Throw (Error "Geocoding failed: Failed to extract location with Gemini API"), u').
Proof.
  intros u.
  assert (Ht : twitter_fails u) by exact I.
  assert (Hs : scrape_fails u) by exact I.
  assert (Hc : configured u) by (split; reflexivity).
  assert (Hg : gemini_fails u) by exact I.
  destruct (adapters_on_failure u "flood" "Flood in Manhattan" (Some "fema"))
    as (H1 & H2 & _ & H4 & H5 & _).
  repeat split; auto.
Defined.

(** C2, as stated, fails for geocoding: with both keys configured and
    the network down, [performGeocoding] throws instead of returning the
    mock result. *)
Lemma geocoding_propagates_failure :
  let u := upstream0 env_keys network_down in
  configured u /\ gemini_fails u
  /\ (performGeocoding "Flood in Manhattan" u).1
     = Throw (Error "Geocoding failed: Failed to extract location with Gemini API")
  /\ (performGeocoding "Flood in Manhattan" u).1 <> Ok mock_result.
Proof.
  intros u. split; [split; reflexivity|]. split; [exact I|].
  split; [vm_compute; reflexivity|]. vm_compute. discriminate.
Qed.

(** C5: when the page is fetched and none of its matched elements
    yields an update, the scraper returns what
    [generateMockOfficialUpdates] returns: three objects, each with the
    properties [id], [source], [title], [content], [timestamp],
    [priority] and [url]. *)
Theorem scrape_zero_items (u : Upstream) source body :
  http u (calls u) = HttpOk body ->
  Forall (fun el => extractable el = false) (matched body) ->
  scrapeOfficialUpdates source u
  = generateMockOfficialUpdates source (after_request u)
  /\ exists items u',
       scrapeOfficialUpdates source u = (Ok (JArr items), u')
       /\ length items = 3%nat
       /\ Forall (fun j => keys j = update_keys) items.
Proof.
  intros Hhttp Hzero.
  assert (Heq : scrapeOfficialUpdates source u
                = generateMockOfficialUpdates source (after_request u)).
  { unfold scrapeOfficialUpdates, after_request.
    unfold try_catch, mbind, M_bind, bind, axios_request. rewrite Hhttp. simpl.
    rewrite (collect_none _ _ _ _ _ Hzero). reflexivity. }
  split; [exact Heq|]. rewrite Heq. apply mock_updates_shape.
Qed.

Lemma scrape_zero_items_witness :
  let u := upstream0 env_live untitled_page in
  http u (calls u) = HttpOk (BodyHtml [MkElement "" "Shelters are open." "2024-05-01"])
  /\ exists items u',
       scrapeOfficialUpdates (Some "fema") u = (Ok (JArr items), u')
       /\ length items = 3%nat
       /\ Forall (fun j => keys j = update_keys) items.
Proof.
  intros u. split; [reflexivity|].
  apply (scrape_zero_items u (Some "fema")
           (BodyHtml [MkElement "" "Shelters are open." "2024-05-01"])).
  - reflexivity.
  - repeat constructor.
Defined.

End Adapters.

(** * Routing of the resources router *)

Section Routing.
Import Resources.

(** No request reaches the handlers registered after [/:id] for a path
    that [/:id] matches. *)
Lemma param_route_first m segs h params :
  first_match router m segs = Some (h, params) ->
  h <> NearbyResources /\ h <> ResourceTypes.
Proof.
  unfold router. destruct m;
    cbn [first_match handles_method route_method route_path route_handler].
  all: destruct segs as [|x [|y rest]]; cbn [match_path].
  all: try (destruct (String.eqb x "") eqn:Hx;
            [apply String.eqb_eq in Hx; subst x; cbn|]).
  all: repeat case_match; intros; simplify_eq; split; congruence.
Qed.

(** C9: GET /nearby and GET /types are served by the handler of
    [/:id], with [id] bound to the path segment, and no request at all is
    dispatched to the handlers of [/nearby] and [/types]. *)
Theorem nearby_and_types_shadowed :
  dispatch GET "/nearby" = Some (GetResource, [("id", "nearby")])
  /\ dispatch GET "/types" = Some (GetResource, [("id", "types")])
  /\ forall m path params,
       dispatch m path <> Some (NearbyResources, params)
       /\ dispatch m path <> Some (ResourceTypes, params).
Proof.
  split; [reflexivity|]. split; [reflexivity|].
  intros m path params. unfold dispatch.
  destruct (segments path) as [segs|]; [|split; discriminate].
  split; intros H; apply param_route_first in H; tauto.
Qed.

End Routing.

(** * Mock authentication and ownership checks *)

Section Authentication.
Import Auth Supabase Disasters Fixtures.

(** [Math.floor(r * 2)] for a draw of [Math.random()]. *)
Lemma floor_of_unit_draw (r : Q) :
  (0 <= r)%Q -> (r < 1)%Q ->
  Qfloor (r * inject_Z 2) = 0 \/ Qfloor (r * inject_Z 2) = 1.
Proof.
  intros H0 H1.
  assert (Hlo : 0 <= Qfloor (r * inject_Z 2)).
  { change 0 with (Qfloor 0). apply Qfloor_resp_le.
    apply Qmult_le_0_compat; [exact H0|discriminate]. }
  assert (Hhi : Qfloor (r * inject_Z 2) < 2).
  { rewrite Zlt_Qlt. eapply Qle_lt_trans; [apply Qfloor_le|].
    change (inject_Z 2) with (1 * inject_Z 2)%Q at 2.
    apply Qmult_lt_compat_r; [reflexivity|exact H1]. }
  lia.
Qed.

(** C10: for a draw in the range of [Math.random()], the user put in
    [req.user] is [u1] (admin) or [u2] (contributor); and the same PUT
    and the same DELETE request, on the same database, are answered 200
    and 204 under one sequence of draws and 403 under another. *)
Theorem mock_auth_is_nondeterministic (u : Upstream) :
  (0 <= random u (draws u))%Q -> (random u (draws u) < 1)%Q ->
  (exists usr u', authMiddleware u = (Ok (Some usr), u')
     /\ (usr = MkUser "u1" "admin" \/ usr = MkUser "u2" "contributor"))
  /\ (exists c id b w rnd rnd',
        unit_draws rnd /\ unit_draws rnd'
        /\ status_of (put_request c id b (with_random rnd w)) = Some 200%nat
        /\ status_of (put_request c id b (with_random rnd' w)) = Some 403%nat
        /\ status_of (delete_request c id (with_random rnd w)) = Some 204%nat
        /\ status_of (delete_request c id (with_random rnd' w)) = Some 403%nat).
Proof.
  intros H0 H1. split.
  - unfold authMiddleware, math_random, mbind, mret, M_bind, M_ret, bind, ret.
    change (Z.of_nat (length mockUsers)) with 2.
    destruct (floor_of_unit_draw _ H0 H1) as [-> | ->]; cbn; eauto.
  - exists (RealClient client0), "d1", flood_update, world_flood,
      (always 0%Q), (always (1 # 2)%Q).
    split; [intros n; split; [discriminate|reflexivity]|].
    split; [intros n; split; [discriminate|reflexivity]|].
    repeat split; vm_compute; reflexivity.
Qed.

Lemma mock_auth_is_nondeterministic_witness :
  let u := upstream0 env_live network_down in
  (0 <= random u (draws u))%Q /\ (random u (draws u) < 1)%Q
  /\ exists usr u', authMiddleware u = (Ok (Some usr), u')
       /\ (usr = MkUser "u1" "admin" \/ usr = MkUser "u2" "contributor").
Proof.
  intros u.
  assert (H0 : (0 <= random u (draws u))%Q) by discriminate.
  assert (H1 : (random u (draws u) < 1)%Q) by reflexivity.
  split; [exact H0|]. split; [exact H1|].
  exact (proj1 (mock_auth_is_nondeterministic u H0 H1)).
Defined.

End Authentication.

(** * Further properties of the cache *)
Section CacheMore.
Import Supabase Fixtures Scenarios.

Ltac unfold_monad :=
  unfold getOrSetCache, cleanExpiredCache, initializeSupabase, cache_select_single,
    cache_upsert, cache_delete_lt, cache_delete, call_fetcher, lift_up, on_mock,
    send, date_now, mbind, mret, M_bind, M_ret, bind, ret, throw, gets, modify,
    log, set_up, set_supabase, set_cache, since, stale, ttl_ms, now_of in *.
Ltac run_cases := repeat (case_match; simplify_eq/=).
Ltac live_only Hlive Hurl :=
  try (rewrite ?Hlive, ?Hurl in *; simpl in *; congruence).
Ltac new_events :=
  rewrite <- ?(assoc_L (++)); rewrite ?drop_app_length, ?drop_all; simpl.
Ltac new_events_in H :=
  rewrite <- ?(assoc_L (++)) in H; rewrite ?drop_app_length, ?drop_all in H;
  simpl in H.
Ltac by_clock :=
  try match goal with
      | H : bool_decide _ = _ |- _ =>
          first [apply bool_decide_eq_true in H | apply bool_decide_eq_false in H];
          simpl in *; lia
      end.

(** X1: with valid credentials [initializeSupabase] returns a real
    client, built from the configured URL and key when none existed, and
    keeps it: any later call, in any world holding that client, returns
    the same client and changes nothing, whatever the environment says
    by then. *)
Theorem initialize_once (w w1 w1' : World) c :
  hasValidCredentials (env (up w)) = true ->
  initializeSupabase w = (Ok c, w1) ->
  supabase w1' = supabase w1 ->
  (exists rc, c = RealClient rc /\ supabase w1 = Some rc
     /\ (supabase w = None ->
         Some (client_url rc) = env (up w) !! "SUPABASE_URL"
         /\ Some (client_key rc) = env (up w) !! "SUPABASE_SERVICE_ROLE_KEY"))
  /\ initializeSupabase w1' = (Ok c, w1').
Proof.
  intros Hlive Hrun Hsame.
  destruct w as [u s ca d f n tr em], w1' as [u' s' ca' d' f' n' tr' em'].
  unfold initializeSupabase, mbind, mret, M_bind, M_ret, bind, ret, gets, modify,
    set_supabase in *. simpl in *.
  destruct s as [rc|]; simpl in *.
  - simplify_eq/=. split; [|reflexivity]. exists rc. repeat split; congruence.
  - rewrite Hlive in Hrun. simpl in Hrun. simplify_eq/=.
    split; [|reflexivity]. eexists. split; [reflexivity|]. split; [reflexivity|].
    intros _. unfold hasValidCredentials in Hlive.
    repeat (apply andb_prop in Hlive as [Hlive ?]).
    destruct (env u !! "SUPABASE_URL"), (env u !! "SUPABASE_SERVICE_ROLE_KEY");
      simpl in *; try discriminate; done.
Qed.

Lemma initialize_once_witness :
  let w := world0 env_live no_faults in
  let run := initializeSupabase w in
  hasValidCredentials (env (up w)) = true
  /\ initializeSupabase (set_up (upstream0 ∅ network_down) run.2)
     = (Ok (RealClient client0), set_up (upstream0 ∅ network_down) run.2).
Proof.
  intros w run. split; [vm_compute; reflexivity|].
  apply (initialize_once w run.2 (set_up (upstream0 ∅ network_down) run.2)
           (RealClient client0)).
  - vm_compute; reflexivity.
  - vm_compute; reflexivity.
  - reflexivity.
Defined.

(** X3: a call for key [k] leaves the entry of every other key, the
    disasters table, the emitted events and the failure oracle as they
    were. *)
Theorem cache_frame (w w' : World) k k' p ttl r :
  getOrSetCache k p ttl w = (r, w') ->
  k' <> k ->
  cache w' !! k' = cache w !! k'
  /\ disasters w' = disasters w /\ emitted w' = emitted w
  /\ faults w' = faults w.
Proof.
  intros Hrun Hne.
  destruct w as [u s c d f n tr em].
  unfold_monad. simpl in *.
  run_cases.
  all: repeat split; try done; by rewrite lookup_insert_ne.
Qed.

Lemma cache_frame_witness :
  let w := world_two_entries in
  let run := getOrSetCache "geocode:abc" producerA None w in
  cache run.2 !! "new" = cache w !! "new"
  /\ disasters run.2 = disasters w /\ emitted run.2 = emitted w
  /\ faults run.2 = faults w.
Proof.
  intros w run.
  apply (cache_frame w run.2 "geocode:abc" "new" producerA None run.1).
  - vm_compute; reflexivity.
  - discriminate.
Defined.

(** X4: when the delete request of the sweep fails, the sweep still
    returns normally, after issuing that one request, and the table is
    unchanged. *)
Theorem clean_failure_is_silent (w w' : World) r err :
  hasValidCredentials (env (up w)) = true ->
  faults w (reqs w) = Some err ->
  cleanExpiredCache w = (r, w') ->
  r = Ok tt /\ cache w' = cache w
  /\ since w w' = [EvQuery (CacheDeleteLt (now_of (up w)))].
Proof.
  intros Hlive Hfault Hrun.
  pose proof (valid_credentials_valid_url _ Hlive) as Hurl.
  destruct w as [u s c d f n tr em]; simpl in *.
  unfold_monad. simpl in *.
  run_cases; live_only Hlive Hurl.
  all: new_events; done.
Qed.

Lemma clean_failure_is_silent_witness :
  let w := MkWorld (upstream0 env_live network_down) None two_entries ∅ all_fail 0 [] [] in
  let run := cleanExpiredCache w in
  faults w (reqs w) = Some unreachable
  /\ run.1 = Ok tt /\ cache run.2 = cache w
  /\ since w run.2 = [EvQuery (CacheDeleteLt (now_of (up w)))].
Proof.
  intros w run. split; [reflexivity|].
  apply (clean_failure_is_silent w run.2 run.1 unreachable).
  - vm_compute; reflexivity.
  - reflexivity.
  - vm_compute; reflexivity.
Defined.

(** X5: with the URL configured, the key not, and no client created
    yet, a call never returns a value.  The producer is invoked once; the
    call throws the producer's error or, when the producer returned, the
    TypeError of the missing [upsert]; nothing is written.  The sweep
    throws the TypeError of the missing [delete]. *)
Theorem url_without_key_never_returns (w w' : World) k p ttl r :
  hasValidUrl (env (up w)) = true ->
  hasValidCredentials (env (up w)) = false ->
  supabase w = None ->
  getOrSetCache k p ttl w = (r, w') ->
  (exists e, r = Throw e)
  /\ (forall v, In (EvFetch (Ok v)) (since w w') ->
        r = Throw (TypeError "upsert is not a function"))
  /\ fetches (since w w') = 1%nat
  /\ cache w' = cache w
  /\ cleanExpiredCache w = (Throw (TypeError "delete is not a function"), w).
Proof.
  intros Hurl Hcred Hnone Hrun.
  destruct w as [u s c d f n tr em]; simpl in *. subst s.
  unfold_monad. simpl in *.
  rewrite ?Hcred, ?Hurl in Hrun |- *. simpl in *.
  run_cases; live_only Hurl Hcred.
  all: new_events.
  all: repeat split; eauto.
  all: intros v Hin; new_events_in Hin; intuition (simplify_eq; auto).
Qed.

Lemma url_without_key_never_returns_witness :
  let w := world0 env_url_only no_faults in
  let run := getOrSetCache "geocode:abc" failing_producer None w in
  hasValidUrl (env (up w)) = true
  /\ run.1 = Throw (Error "upstream down")
  /\ cleanExpiredCache w = (Throw (TypeError "delete is not a function"), w).
Proof.
  intros w run.
  destruct (url_without_key_never_returns w run.2 "geocode:abc" failing_producer
              None run.1) as ([e He] & _ & _ & _ & Hclean).
  - vm_compute; reflexivity.
  - vm_compute; reflexivity.
  - reflexivity.
  - vm_compute; reflexivity.
  - split; [vm_compute; reflexivity|]. split; [vm_compute; reflexivity|]. exact Hclean.
Defined.

(** X2: with the URL absent or a placeholder, a call runs the producer
    on the upstream world as it is and returns its outcome; it sends no
    request, writes nothing and creates no client. *)
Theorem cache_bypassed_without_url (w w' : World) k p ttl r :
  hasValidUrl (env (up w)) = false ->
  getOrSetCache k p ttl w = (r, w') ->
  p (up w) = (r, up w')
  /\ since w w' = [EvFetch r]
  /\ reqs w' = reqs w /\ cache w' = cache w /\ supabase w' = supabase w.
Proof.
  intros Hurl Hrun.
  assert (Hcred : hasValidCredentials (env (up w)) = false).
  { destruct (hasValidCredentials (env (up w))) eqn:H; [|reflexivity].
    apply valid_credentials_valid_url in H. congruence. }
  destruct w as [u s c d f n tr em]; simpl in *.
  unfold_monad. simpl in *.
  rewrite ?Hcred, ?Hurl in Hrun. simpl in Hrun.
  run_cases; live_only Hurl Hcred.
  all: new_events; done.
Qed.

Lemma cache_bypassed_without_url_witness :
  let w := world_bare in
  let run := getOrSetCache "geocode:abc" producerA None w in
  hasValidUrl (env (up w)) = false
  /\ producerA (up w) = (run.1, up run.2)
  /\ since w run.2 = [EvFetch run.1]
  /\ reqs run.2 = reqs w /\ cache run.2 = cache w /\ supabase run.2 = supabase w.
Proof.
  intros w run. split; [vm_compute; reflexivity|].
  apply (cache_bypassed_without_url w run.2 "geocode:abc" producerA None run.1).
  - vm_compute; reflexivity.
  - vm_compute; reflexivity.
Defined.
End CacheMore.

(** * Cache keys *)
Section KeysP.
Import Keys.







Lemma append_assoc (a b c : string) : (a ++ b) ++ c = a ++ (b ++ c).
Proof.
  induction a as [|x a IH]; [reflexivity|].
  change (String x ((a ++ b) ++ c) = String x (a ++ (b ++ c))). by f_equal.
Qed.

Lemma length_append (a b : string) :
  String.length (a ++ b) = (String.length a + String.length b)%nat.
Proof.
  induction a as [|x a IH]; [reflexivity|].
  change (S (String.length (a ++ b)) = S (String.length a + String.length b)).
  by f_equal.
Qed.

(** X7: the keys of the Twitter and official-updates routes join their
    two parts with a colon and do not tell them apart: moving a colon
    from one part to the other gives the same key for different
    requests, and an absent part gives the key of the text
    [undefined]. *)
Theorem joined_keys_collide (d a b : string) :
  d ++ ":" ++ a <> d
  /\ twitter_key (Some (d ++ ":" ++ a)) (Some b)
     = twitter_key (Some d) (Some (a ++ ":" ++ b))
  /\ official_updates_key (Some (d ++ ":" ++ a)) (Some b)
     = official_updates_key (Some d) (Some (a ++ ":" ++ b))
  /\ twitter_key (Some d) None = twitter_key (Some d) (Some "undefined")
  /\ official_updates_key None (Some b) = official_updates_key (Some "undefined") (Some b).
Proof.
  split.
  { intros H. apply (f_equal String.length) in H.
    rewrite !length_append in H. cbn in H. lia. }
  unfold twitter_key, official_updates_key, interpolate, default, from_option, id.
  repeat split; by rewrite ?append_assoc.
Qed.
End KeysP.

(** * Further properties of the adapters *)
Section AdaptersMore.
Import SocialMedia Geocode Verification Shapes Fixtures Scenarios.

Ltac unfold_adapter :=
  unfold try_catch, axios_request, date_now, math_random, getenv,
    mbind, mret, M_bind, M_ret, bind, ret, throw, gets in *.

Lemma substring_length_le n s : (String.length (String.substring 0 n s) <= n)%nat.
Proof.
  revert s. induction n as [|n IH]; intros [|a s]; simpl; try lia.
  specialize (IH s). lia.
Qed.

Lemma collect_shape source url els i u :
  exists updates u',
    collect source url els i u = (Ok updates, u')
    /\ (length updates <= length els)%nat
    /\ Forall well_formed_update updates.
Proof.
  revert i u. induction els as [|el els IH]; intros i u; cbn [collect].
  - eexists _, _. split; [reflexivity|]. split; [simpl; lia | constructor].
  - destruct (extractable el).
    + unfold mbind, M_bind, bind, date_now.
      destruct (nonempty (el_time el)); cbn [mret M_ret ret];
      match goal with |- context [collect source url els ?j ?u1] =>
        destruct (IH j u1) as (updates & u' & -> & Hlen & Hall) end;
      (eexists _, _; split; [reflexivity|]; split; [simpl; lia|];
       constructor; [|exact Hall]; split; [reflexivity|];
       eexists; split; [reflexivity | apply substring_length_le]).
    + destruct (IH (S i) u) as (updates & u' & -> & Hlen & Hall).
      eexists _, _. split; [reflexivity|]. split; [simpl; lia | exact Hall].
Qed.

Lemma mock_updates_well_formed source u :
  exists items u',
    generateMockOfficialUpdates source u = (Ok (JArr items), u')
    /\ length items = 3%nat /\ Forall well_formed_update items.
Proof.
  unfold generateMockOfficialUpdates. unfold_adapter. simpl.
  eexists _, _. split; [reflexivity|]. split; [reflexivity|].
  repeat constructor; eexists; (split; [reflexivity | vm_compute; lia]).
Qed.

(** X8: whatever the network answers, the scraper returns an array of
    at least one and at most ten updates, each with the seven properties
    and a content of at most 500 characters. *)
Theorem scrape_result_bounds (u : Upstream) (source : option string) :
  exists items u',
    scrapeOfficialUpdates source u = (Ok (JArr items), u')
    /\ (1 <= length items <= 10)%nat
    /\ Forall well_formed_update items.
Proof.
  unfold scrapeOfficialUpdates, try_catch, mbind, M_bind, bind, axios_request.
  destruct (http u (calls u)) as [msg|body].
  - destruct (mock_updates_well_formed source
       (MkUpstream (env u) (clock u) (ticks u) (random u) (draws u) (http u)
          (S (calls u)))) as (items & u' & -> & Hlen & Hall).
    exists items, u'. split; [reflexivity|]. split; [lia | exact Hall].
  - match goal with |- context [collect source ?url ?els ?j ?u1] =>
      destruct (collect_shape source url els j u1) as (updates & u' & -> & _ & Hall) end.
    case_bool_decide as Hempty.
    + destruct (mock_updates_well_formed source u') as (items & u'' & -> & Hlen & Hall').
      exists items, u''. split; [reflexivity|]. split; [lia | exact Hall'].
    + exists (take 10 updates), u'. split; [reflexivity|]. split.
      * rewrite length_take. lia.
      * by apply Forall_take.
Qed.

Lemma tweet_posts_shape tweets u :
  exists posts u',
    map_adapter tweet_post tweets u = (Ok posts, u')
    /\ Forall2 post_of tweets posts
    /\ draws u' = (draws u + 3 * length tweets)%nat
    /\ calls u' = calls u /\ ticks u' = ticks u.
Proof.
  revert u. induction tweets as [|t tweets IH]; intros u; cbn [map_adapter].
  - eexists _, _. split; [reflexivity|]. split; [constructor|]. simpl. lia.
  - unfold mbind, M_bind, bind.
    unfold tweet_post at 1, random_below. unfold_adapter. simpl.
    match goal with |- context [map_adapter tweet_post tweets ?u1] =>
      destruct (IH u1) as (posts & u' & -> & Hall & Hd & Hc & Ht) end.
    eexists _, _. split; [reflexivity|]. simpl in *.
    split; [|split; [lia|split; assumption]].
    constructor; [|exact Hall]. split; [reflexivity|]. repeat split.
Qed.

(** X9: when Twitter answers with a list of tweets, the adapter
    returns one post per tweet, in order, carrying the tweet's id, text
    and creation time under the eight properties of a post; it makes
    one request, draws three random numbers per tweet and does not read
    the clock. *)
Theorem twitter_success (u : Upstream) (query : string) (tweets : list tweet) :
  http u (calls u) = HttpOk (BodyTweets tweets) ->
  exists posts u',
    fetchTwitterPosts query u = (Ok (JArr posts), u')
    /\ Forall2 post_of tweets posts
    /\ draws u' = (draws u + 3 * length tweets)%nat
    /\ calls u' = S (calls u) /\ ticks u' = ticks u.
Proof.
  intros Hhttp.
  unfold fetchTwitterPosts, try_catch, mbind, M_bind, bind, axios_request.
  rewrite Hhttp.
  match goal with |- context [map_adapter tweet_post tweets ?u1] =>
    destruct (tweet_posts_shape tweets u1) as (posts & u' & -> & Hall & Hd & Hc & Ht) end.
  exists posts, u'. split; [reflexivity|]. simpl in *. auto.
Qed.

Lemma twitter_success_witness :
  let u := upstream0 env_live twitter_up in
  exists posts u',
    fetchTwitterPosts "flood" u = (Ok (JArr posts), u')
    /\ length posts = 2%nat /\ draws u' = 6%nat.
Proof.
  intros u.
  destruct (twitter_success u "flood"
              [ MkTweet "101" "Flood on 5th Avenue" "2024-05-01T10:00:00Z";
                MkTweet "102" "Shelter open at City Hall" "2024-05-01T10:05:00Z" ])
    as (posts & u' & Hrun & Hall & Hd & _); [reflexivity|].
  exists posts, u'. split; [exact Hrun|]. split.
  - apply Forall2_length in Hall. simpl in Hall. lia.
  - exact Hd.
Defined.

Lemma lower_idempotent a : Resources.lower (Resources.lower a) = Resources.lower a.
Proof. destruct a as [[] [] [] [] [] [] [] []]; vm_compute; reflexivity. Qed.

Lemma lowercase_idempotent s :
  Resources.lowercase (Resources.lowercase s) = Resources.lowercase s.
Proof.
  induction s as [|a s IH]; simpl; [reflexivity|].
  by rewrite lower_idempotent, IH.
Qed.

(** X10: the verdict on a post is [true] exactly when its content,
    whatever the case of its letters, contains one of the four keywords.
    An image never changes the verdict: it only raises the confidence
    from 0.6 to 0.8. *)
Theorem verdict_ignores_image (content : string) (img1 img2 : option string)
    (u : Upstream) :
  exists v1 v2,
    verifySocialMediaPost (Some content) img1 u = (Ok v1, u)
    /\ verifySocialMediaPost (Some content) img2 u = (Ok v2, u)
    /\ verified v1 = verified v2
    /\ verified v1 = hasKeywords content
    /\ hasKeywords (Resources.lowercase content) = hasKeywords content
    /\ (confidence v1 = 3 # 10 \/ confidence v1 = 6 # 10 \/ confidence v1 = 8 # 10)
    /\ (confidence v1 = 8 # 10 <-> hasKeywords content = true /\ truthy img1 = true).
Proof.
  unfold verifySocialMediaPost, mret, M_ret, ret.
  eexists _, _. split; [reflexivity|]. split; [reflexivity|]. simpl.
  split; [destruct (hasKeywords content), (truthy img1), (truthy img2); reflexivity|].
  split; [destruct (hasKeywords content), (truthy img1); reflexivity|].
  split; [unfold hasKeywords; by rewrite lowercase_idempotent|].
  destruct (hasKeywords content), (truthy img1); split; auto; split;
    intros H; try discriminate; try tauto; destruct H; discriminate.
Qed.

Lemma or_default_nonzero x : ~ (or_default x == 0)%Q.
Proof.
  unfold or_default. destruct (Qeq_bool x 0) eqn:Hx.
  - discriminate.
  - by apply Qeq_bool_neq.
Qed.


(** X11: every result that [performGeocoding] returns, mock or live,
    has the properties [location_name], [lat], [lon], [confidence], and
    its confidence is never 0: a relevance of 0 is reported as 0.8. *)
Theorem geocoding_result_shape (text : string) (u u' : Upstream) (j : json) :
  performGeocoding text u = (Ok j, u') ->
  keys j = geocode_keys
  /\ match j with
     | JObj fs => exists q, Disasters.field "confidence" fs = Some (JNum q)
                            /\ ~ (q == 0)%Q
     | _ => False
     end.
Proof.
  unfold performGeocoding, extractLocationWithGemini, geocodeWithMapbox.
  unfold_adapter. simpl.
  intros H. repeat (case_match; simplify_eq/=).
  all: split; [reflexivity|]; eexists; split; [reflexivity|].
  all: first [discriminate | apply or_default_nonzero].
Qed.

Lemma geocoding_result_shape_witness :
  let u := upstream0 env_keys geocoder_up in
  (performGeocoding "Flood in Manhattan" u).1
  = Ok (JObj [ ("location_name", JStr "Manhattan, NYC");
               ("lat", JNum (407831 # 10000));
               ("lon", JNum (- 739712 # 10000));
               ("confidence", JNum (8 # 10)) ])
  /\ keys (JObj [ ("location_name", JStr "Manhattan, NYC");
                  ("lat", JNum (407831 # 10000));
                  ("lon", JNum (- 739712 # 10000));
                  ("confidence", JNum (8 # 10)) ]) = geocode_keys.
Proof.
  intros u. split; [vm_compute; reflexivity|].
  apply (geocoding_result_shape "Flood in Manhattan" u
           (performGeocoding "Flood in Manhattan" u).2).
  vm_compute; reflexivity.
Defined.
End AdaptersMore.

(** * Properties of the disaster routes *)
Section DisastersMore.
Import Supabase Disasters Routes Fixtures Scenarios.

Ltac unfold_fetch :=
  unfold fetch_owned, select_single, on_mock, send, mbind, mret, M_bind, M_ret,
    bind, ret, throw, gets, modify, log in *.
Ltac unfold_rest :=
  unfold update, delete_row, errorHandler, lift_up, on_mock, send, date_now, emit,
    mbind, mret, M_bind, M_ret, bind, ret, throw, gets, modify, log, set_up,
    set_disasters, now_of in *.
Ltac run_cases := repeat (case_match; simplify_eq/=).

Lemma eqb_of_neq (a b : string) : a <> b -> String.eqb a b = false.
Proof. intros H. by apply String.eqb_neq. Qed.

(** The answer of [errorHandler] leaves the world as it is. *)
Lemma errorHandler_run e w :
  exists r, errorHandler e w = (Ok r, w)
    /\ (status r = 400 \/ status r = 401 \/ status r = 500)%nat
    /\ (status r = 500%nat -> env (up w) !! "NODE_ENV" <> Some "development" ->
        body r = BodyError "Internal server error").
Proof.
  unfold errorHandler, mbind, mret, M_bind, M_ret, bind, ret, gets.
  repeat case_match; eexists; (split; [reflexivity|]); simpl; split; auto; intros; try lia.
  all: try discriminate; try reflexivity.
  match goal with H : bool_decide _ = true |- _ => apply bool_decide_eq_true in H end.
  congruence.
Qed.

(** The fetch and the ownership check change neither table nor events;
    they let the handler go on only for the owner or an admin, with the
    stored row. *)
Lemma fetch_owned_run c user id w r w' :
  fetch_owned c user id w = (r, w') ->
  disasters w' = disasters w /\ emitted w' = emitted w /\ up w' = up w
  /\ faults w' = faults w
  /\ (forall d, r = Ok (inr d) ->
        disasters w !! id = Some d
        /\ (exists rc, c = RealClient rc) /\ reqs w' = S (reqs w)
        /\ exists u, user = Some u
             /\ (owner_id d = Auth.id u \/ Auth.role u = "admin"))
  /\ (forall resp, r = Ok (inl resp) -> status resp = 404%nat \/ status resp = 403%nat).
Proof.
  intros Hrun. destruct w as [up s ca d f n tr em]; simpl in *.
  unfold_fetch. simpl in *. run_cases.
  all: repeat split; try done; try (intros; simplify_eq/=; auto; fail).
  all: simplify_eq/=; eauto.
  eexists; split; [reflexivity|].
  match goal with H : _ && _ = false |- _ =>
    apply andb_false_iff in H as [H|H]; apply negb_false_iff in H;
    apply String.eqb_eq in H; auto end.
Qed.

Lemma fetch_owned_stranger c u id w r w' :
  Auth.role u <> "admin" ->
  (forall d, disasters w !! id = Some d -> owner_id d <> Auth.id u) ->
  fetch_owned c (Some u) id w = (r, w') ->
  (forall d, r <> Ok (inr d))
  /\ (forall rc, c = RealClient rc -> faults w (reqs w) = None ->
      is_Some (disasters w !! id) ->
      r = Ok (inl (MkHttp 403 (BodyError "Insufficient permissions")))).
Proof.
  intros Hrole Hown Hrun. split.
  - intros d ->. destruct (fetch_owned_run _ _ _ _ _ _ Hrun) as (_ & _ & _ & _ & H & _).
    destruct (H d eq_refl) as (Hd & _ & _ & u' & Hu & Hor). simplify_eq.
    destruct Hor; [by apply (Hown d) | done].
  - intros rc -> Hf [x Hx]. apply eqb_of_neq in Hrole.
    pose proof (eqb_of_neq _ _ (Hown x Hx)) as Ho.
    destruct w as [up s ca d f n tr em]; simpl in *.
    unfold_fetch. simpl in *. rewrite Hf in Hrun. simpl in Hrun.
    rewrite Hx in Hrun. simpl in Hrun. rewrite Ho, Hrole in Hrun. simpl in Hrun.
    by simplify_eq.
Qed.

Lemma handlers_stop c user id b w resp w1 :
  fetch_owned c user id w = (Ok (inl resp), w1) ->
  put_handler c user id b w = (Ok resp, w1)
  /\ delete_handler c user id w = (Ok resp, w1).
Proof.
  intros H. unfold put_handler, delete_handler, try_catch, mbind, M_bind, bind.
  rewrite H. split; reflexivity.
Qed.

Lemma handlers_fail c user id b w e w1 :
  fetch_owned c user id w = (Throw e, w1) ->
  put_handler c user id b w = errorHandler e w1
  /\ delete_handler c user id w = errorHandler e w1.
Proof.
  intros H. unfold put_handler, delete_handler, try_catch, mbind, M_bind, bind.
  rewrite H. split; reflexivity.
Qed.

(** X12: a user who is neither an admin nor the owner of the row can
    change nothing: PUT and DELETE leave the table and the emitted
    events as they were and never answer 200 or 204; when the row exists
    and the database answers, both answer 403. *)
Theorem stranger_cannot_change (c : client) (u : Auth.user) (id : string)
    (b : disaster_input) (w : World) :
  Auth.role u <> "admin" ->
  (forall d, disasters w !! id = Some d -> owner_id d <> Auth.id u) ->
  let put := put_handler c (Some u) id b w in
  let del := delete_handler c (Some u) id w in
  disasters put.2 = disasters w /\ emitted put.2 = emitted w
  /\ disasters del.2 = disasters w /\ emitted del.2 = emitted w
  /\ status_of put <> Some 200%nat /\ status_of del <> Some 204%nat
  /\ (forall rc, c = RealClient rc -> faults w (reqs w) = None ->
      is_Some (disasters w !! id) ->
      status_of put = Some 403%nat /\ status_of del = Some 403%nat).
Proof.
  intros Hrole Hown put del. subst put del.
  destruct (fetch_owned c (Some u) id w) as [r w1] eqn:Hrun.
  destruct (fetch_owned_run _ _ _ _ _ _ Hrun) as (Hd & He & _ & _ & _ & Hresp).
  destruct (fetch_owned_stranger _ _ _ _ _ _ Hrole Hown Hrun) as (Hno & H403).
  destruct r as [[resp|d]|e]; [| by destruct (Hno d) |].
  - destruct (handlers_stop _ _ _ b _ _ _ Hrun) as [-> ->]. unfold status_of. cbn.
    destruct (Hresp resp eq_refl) as [Hs|Hs]; rewrite Hs.
    all: split_and!; try done.
    all: intros rc Hc Hf Hx; specialize (H403 rc Hc Hf Hx); by simplify_eq.
  - destruct (handlers_fail _ _ _ b _ _ _ Hrun) as [-> ->]. unfold status_of.
    destruct (errorHandler_run e w1) as (resp & -> & Hs & _). cbn.
    split_and!; try done; try (destruct Hs as [-> | [-> | ->]]; done).
    all: intros rc Hc Hf Hx; specialize (H403 rc Hc Hf Hx); by simplify_eq.
Qed.

Lemma stranger_cannot_change_witness :
  let put := put_handler (RealClient client0) (Some contributor) "d1" flood_input world_flood in
  let del := delete_handler (RealClient client0) (Some contributor) "d1" world_flood in
  Auth.role contributor <> "admin"
  /\ disasters put.2 = disasters world_flood
  /\ disasters del.2 = disasters world_flood
  /\ status_of put = Some 403%nat /\ status_of del = Some 403%nat.
Proof.
  intros put del.
  assert (Hrole : Auth.role contributor <> "admin") by discriminate.
  assert (Hown : forall d, disasters world_flood !! "d1" = Some d ->
                           owner_id d <> Auth.id contributor).
  { intros d Hd. vm_compute in Hd. injection Hd as <-. discriminate. }
  destruct (stranger_cannot_change (RealClient client0) contributor "d1" flood_input
              world_flood Hrole Hown) as (H1 & _ & H3 & _ & _ & _ & H7).
  destruct (H7 client0 eq_refl) as [H8 H9];
    [reflexivity | eexists; vm_compute; reflexivity |].
  auto.
Defined.

(** X13: a PUT answered 200 was made by the owner or by an admin, on a
    row that existed; the stored row keeps its owner, takes the title
    and location name of the request, and its audit trail grows by one
    entry with the user's id and the time of the update; one
    [disaster_updated] event is emitted with that row. *)
Theorem update_is_authorized (c : client) (u : Auth.user) (id : string)
    (b : disaster_input) (w w' : World) (answer : res_body) :
  put_handler c (Some u) id b w = (Ok (MkHttp 200 answer), w') ->
  exists old new,
    disasters w !! id = Some old
    /\ (owner_id old = Auth.id u \/ Auth.role u = "admin")
    /\ answer = BodyDisaster new
    /\ disasters w' = <[id := new]> (disasters w)
    /\ owner_id new = owner_id old
    /\ audit_trail new
       = (audit_trail old ++ [MkAudit "updated" (Auth.id u) (now_of (up w))])%list
    /\ title new = in_title b /\ location_name new = in_location_name b
    /\ emitted w' = (emitted w ++ [MkEmit "disaster_updated" "updated" (PDisaster new)])%list.
Proof.
  intros Hrun. unfold put_handler, try_catch in Hrun.
  unfold mbind at 1, M_bind at 1, bind at 1 in Hrun.
  destruct (fetch_owned c (Some u) id w) as [r w1] eqn:Hf.
  destruct (fetch_owned_run _ _ _ _ _ _ Hf) as (Hd & He & Hu & Hfa & Hinr & Hresp).
  destruct r as [[resp|old]|e].
  - cbn in Hrun. simplify_eq. destruct (Hresp _ eq_refl); simpl in *; lia.
  - destruct (Hinr old eq_refl) as (Hold & [rc ->] & Hreqs & u' & Hu' & Hauth).
    simplify_eq. exists old.
    destruct w as [up s ca d f n tr em], w1 as [up1 s1 ca1 d1 f1 n1 tr1 em1];
      simpl in *; subst.
    unfold_rest. simpl in Hrun. run_cases.
    all: eexists; split_and!; done.
  - destruct (errorHandler_run e w1) as (resp & Hr & Hs & _).
    rewrite Hr in Hrun. simplify_eq. simpl in Hs. lia.
Qed.

Lemma update_is_authorized_witness :
  let run := put_handler (RealClient client0) (Some admin) "d1" flood_input world_flood in
  exists old new,
    disasters world_flood !! "d1" = Some old
    /\ owner_id new = owner_id old
    /\ audit_trail new
       = (audit_trail old ++ [MkAudit "updated" "u1" 0])%list
    /\ disasters run.2 = <["d1" := new]> (disasters world_flood).
Proof.
  intros run.
  destruct (update_is_authorized (RealClient client0) admin "d1" flood_input
              world_flood run.2
              (BodyDisaster (MkDisaster "Flood" "Lower Manhattan" None [] None "u1"
                 [MkAudit "created" "u1" 0; MkAudit "updated" "u1" 0])))
    as (old & new & H1 & _ & _ & H4 & H5 & H6 & _).
  - vm_compute; reflexivity.
  - exists old, new. auto.
Defined.

(** X14: a DELETE answered 204 was made by the owner or by an admin; it
    removes the row and emits one event, and from then on PUT, DELETE
    and GET for that id answer 404 whenever the database answers. *)
Theorem delete_removes_row (c : client) (u : Auth.user) (id : string)
    (w w' : World) :
  delete_handler c (Some u) id w = (Ok (MkHttp 204 BodyNone), w') ->
  (exists old, disasters w !! id = Some old
     /\ (owner_id old = Auth.id u \/ Auth.role u = "admin"))
  /\ disasters w' = delete id (disasters w)
  /\ emitted w' = (emitted w ++ [MkEmit "disaster_updated" "deleted" (PDisasterId id)])%list
  /\ (forall user b, faults w' (reqs w') = None ->
      status_of (put_handler c user id b w') = Some 404%nat
      /\ status_of (delete_handler c user id w') = Some 404%nat
      /\ status_of (get_handler c id w') = Some 404%nat).
Proof.
  intros Hrun. unfold delete_handler, try_catch in Hrun.
  unfold mbind at 1, M_bind at 1, bind at 1 in Hrun.
  destruct (fetch_owned c (Some u) id w) as [r w1] eqn:Hf.
  destruct (fetch_owned_run _ _ _ _ _ _ Hf) as (Hd & He & Hu & Hfa & Hinr & Hresp).
  destruct r as [[resp|old]|e].
  - cbn in Hrun. simplify_eq. destruct (Hresp _ eq_refl); simpl in *; lia.
  - destruct (Hinr old eq_refl) as (Hold & [rc ->] & Hreqs & u' & Hu' & Hauth).
    simplify_eq. split; [eauto|].
    destruct w as [up s ca d f n tr em], w1 as [up1 s1 ca1 d1 f1 n1 tr1 em1];
      simpl in *; subst.
    unfold_rest. simpl in Hrun. run_cases.
    all: split_and!; try done.
    all: intros user b Hnf; simpl in Hnf.
    all: unfold put_handler, delete_handler, get_handler, status_of, try_catch.
    all: unfold_fetch; unfold_rest; simpl; rewrite Hnf; simpl.
    all: rewrite lookup_delete_eq; simpl; done.
  - destruct (errorHandler_run e w1) as (resp & Hr & Hs & _).
    rewrite Hr in Hrun. simplify_eq. simpl in Hs. lia.
Qed.

Lemma delete_removes_row_witness :
  let run := delete_handler (RealClient client0) (Some admin) "d1" world_flood in
  disasters run.2 = delete "d1" (disasters world_flood)
  /\ status_of (get_handler (RealClient client0) "d1" run.2) = Some 404%nat.
Proof.
  intros run.
  destruct (delete_removes_row (RealClient client0) admin "d1" world_flood run.2)
    as (_ & H2 & _ & H4).
  - vm_compute; reflexivity.
  - split; [exact H2|].
    destruct (H4 None flood_input) as (_ & _ & H); [reflexivity | exact H].
Defined.








(** X18: unless NODE_ENV is [development], a PUT or DELETE answered
    500 carries the body [Internal server error] and not the message of
    the error. *)
Theorem production_hides_errors (c : client) (user : option Auth.user)
    (id : string) (b : disaster_input) (w w' : World) (answer : res_body) :
  env (up w) !! "NODE_ENV" <> Some "development" ->
  (put_handler c user id b w = (Ok (MkHttp 500 answer), w')
   \/ delete_handler c user id w = (Ok (MkHttp 500 answer), w')) ->
  answer = BodyError "Internal server error".
Proof.
  intros Henv Hrun.
  assert (Hh : forall e w1, env (up w1) = env (up w) ->
            errorHandler e w1 = (Ok (MkHttp 500 answer), w') ->
            answer = BodyError "Internal server error").
  { intros e w1 Hw He.
    destruct (errorHandler_run e w1) as (resp & Hr & _ & Hhide).
    rewrite Hr in He. simplify_eq. apply Hhide; [reflexivity | by rewrite Hw]. }
  destruct Hrun as [Hrun|Hrun];
    unfold put_handler, delete_handler, try_catch in Hrun;
    unfold mbind at 1, M_bind at 1, bind at 1 in Hrun;
    destruct (fetch_owned c user id w) as [r w1] eqn:Hf;
    destruct (fetch_owned_run _ _ _ _ _ _ Hf) as (Hd & He & Hu & Hfa & Hinr & Hresp);
    destruct r as [[resp|old]|e].
  all: try (cbn in Hrun; simplify_eq; destruct (Hresp _ eq_refl); simpl in *; lia).
  all: try (apply (Hh e w1); [by rewrite Hu | exact Hrun]).
  all: destruct w as [up s ca d f n tr em], w1 as [up1 s1 ca1 d1 f1 n1 tr1 em1];
    simpl in *; subst.
  all: unfold_rest; simpl in Hrun; run_cases; try done.
  all: match goal with H : bool_decide _ = true |- _ =>
         apply bool_decide_eq_true in H; congruence end.
Qed.

Lemma production_hides_errors_witness :
  let run := put_handler (RealClient client0) (Some admin) "d1" flood_input
               world_flood_down in
  let answer := match run.1 with Ok r => body r | Throw _ => BodyNone end in
  env (up world_flood_down) !! "NODE_ENV" <> Some "development"
  /\ run.1 = Ok (MkHttp 500 answer)
  /\ answer = BodyError "Internal server error".
Proof.
  intros run answer.
  assert (Henv : env (up world_flood_down) !! "NODE_ENV" <> Some "development").
  { vm_compute. discriminate. }
  assert (Hrun : run = (Ok (MkHttp 500 answer), run.2)) by (vm_compute; reflexivity).
  split; [exact Henv|]. split; [by rewrite Hrun|].
  apply (production_hides_errors (RealClient client0) (Some admin) "d1" flood_input
           world_flood_down run.2 answer Henv).
  left. exact Hrun.
Defined.
End DisastersMore.

(** * Properties of the geocoding and social-media routes *)
Section RoutesMore.
Import Supabase Disasters Routes Keys Fixtures Scenarios.

Ltac unfold_monad :=
  unfold getOrSetCache, cleanExpiredCache, initializeSupabase, cache_select_single,
    cache_upsert, cache_delete_lt, cache_delete, call_fetcher, lift_up, on_mock,
    send, date_now, mbind, mret, M_bind, M_ret, bind, ret, throw, gets, modify,
    log, set_up, set_supabase, set_cache, since, stale, ttl_ms, now_of in *.
Ltac run_cases := repeat (case_match; simplify_eq/=).
Ltac live_only Hlive Hurl :=
  try (rewrite ?Hlive, ?Hurl in *; simpl in *; congruence).
Ltac by_clock :=
  try match goal with
      | H : bool_decide _ = _ |- _ =>
          first [apply bool_decide_eq_true in H | apply bool_decide_eq_false in H];
          simpl in *; lia
      end.

(** On a live store that answers the select and holds no unexpired
    entry, the outcome of the call is the outcome of the producer, run on
    the configuration and network state the call started in. *)
Lemma live_miss_outcome (w w' : World) k p ttl r :
  hasValidCredentials (env (up w)) = true ->
  faults w (reqs w) = None ->
  stale w k ->
  getOrSetCache k p ttl w = (r, w') ->
  (exists u0 u1, p u0 = (r, u1) /\ env u0 = env (up w)
     /\ http u0 = http (up w) /\ calls u0 = calls (up w))
  /\ (forall e, r = Throw e -> cache w' = cache w).
Proof.
  intros Hlive Hf Hstale Hrun.
  pose proof (valid_credentials_valid_url _ Hlive) as Hurl.
  destruct w as [u s c d f n tr em]; simpl in *.
  unfold_monad. simpl in *.
  run_cases; live_only Hlive Hurl; by_clock.
  all: split; [eexists _, _; split; [eassumption|]; simpl; auto | intros; simplify_eq; done].
Qed.


Ltac unfold_adapter :=
  unfold try_catch, axios_request, date_now, math_random, getenv,
    mbind, mret, M_bind, M_ret, bind, ret, throw, gets in *.

Lemma geocoding_unconfigured text u :
  ~ Geocode.configured u ->
  Geocode.performGeocoding text u = (Ok Geocode.mock_result, u).
Proof.
  unfold Geocode.configured, Geocode.performGeocoding. unfold_adapter. simpl.
  intros H.
  destruct (truthy (env u !! "GEMINI_API_KEY")), (truthy (env u !! "MAPBOX_TOKEN"));
    simpl; try reflexivity.
  destruct H. auto.
Qed.

Lemma geocoding_throws text u :
  Geocode.configured u ->
  Geocode.gemini_fails u \/ Geocode.mapbox_fails u ->
  exists msg u',
    Geocode.performGeocoding text u = (Throw (Error ("Geocoding failed: " ++ msg)), u').
Proof.
  intros [Hg Hm].
  unfold Geocode.gemini_fails, Geocode.mapbox_fails, Geocode.performGeocoding,
    Geocode.extractLocationWithGemini, Geocode.geocodeWithMapbox.
  unfold_adapter. simpl. rewrite Hg, Hm. simpl.
  destruct (http u (calls u)) as [msg|[?|?|?|?|]]; simpl;
    try (intros [H|H]; try done; eexists _, _; reflexivity).
  destruct (http u (S (calls u))) as [msg|[?|?|[|f fs]|?|]]; simpl;
    intros [H|H]; try done; eexists _, _; reflexivity.
Qed.

(** The reply of a route to what the cache call returned. *)
Lemma json_route_run (m : M World json) w r w1 :
  m w = (r, w1) ->
  match r with
  | Ok j => json_route m w = (Ok (Replied 200 j), w1)
  | Throw e => exists resp, json_route m w = (Ok (Failed resp), w1)
                 /\ errorHandler e w1 = (Ok resp, w1)
  end.
Proof.
  intros H. unfold json_route, try_catch.
  cbv beta iota delta [mbind M_bind bind]. rewrite H.
  destruct r as [j|e]; [reflexivity|].
  destruct (errorHandler_run e w1) as (resp & Hr & _).
  exists resp. split; [|exact Hr]. by rewrite Hr.
Qed.

(** X19: with the store live and a geocoding key missing, POST /geocode
    answers 200 with the mock location and stores it in the cache under
    the key of the text, to expire one hour after the write. *)
Theorem geocode_route_caches_mock (b : json) (text : string) (w w' : World)
    (r : Res reply) :
  hasValidCredentials (env (up w)) = true ->
  faults w (reqs w) = None ->
  faults w (S (reqs w)) = None ->
  ~ Geocode.configured (up w) ->
  parse_geocode b = Some text ->
  stale w (geocode_key text) ->
  geocode_request b w = (r, w') ->
  r = Ok (Replied 200 Geocode.mock_result)
  /\ cache w' !! geocode_key text
     = Some (MkEntry Geocode.mock_result
               (clock (up w') (pred (ticks (up w'))) + 3600000)).
Proof.
  intros Hlive Hf0 Hf1 Hcfg Hb Hstale Hrun.
  unfold geocode_request in Hrun. rewrite Hb in Hrun.
  destruct (getOrSetCache (geocode_key text) (Geocode.performGeocoding text) None w)
    as [r1 w1] eqn:Hcache.
  destruct (live_miss_outcome _ _ _ _ _ _ Hlive Hf0 Hstale Hcache)
    as ((u0 & u1 & Hp & He & _) & _).
  rewrite geocoding_unconfigured in Hp
    by (unfold Geocode.configured in *; by rewrite He).
  simplify_eq.
  pose proof (json_route_run _ _ _ _ Hcache) as Hroute. cbn in Hroute.
  rewrite Hroute in Hrun. simplify_eq. split; [reflexivity|].
  by destruct (miss_run _ _ _ _ _ _ Hlive Hf0 Hf1 Hstale Hcache) as (_ & Hk & _).
Qed.

Lemma geocode_route_caches_mock_witness :
  let run := geocode_request geocode_body world_store_only in
  hasValidCredentials (env (up world_store_only)) = true
  /\ run.1 = Ok (Replied 200 Geocode.mock_result)
  /\ cache run.2 !! geocode_key "Heavy flooding in Manhattan"
     = Some (MkEntry Geocode.mock_result
               (clock (up run.2) (pred (ticks (up run.2))) + 3600000)).
Proof.
  intros run. split; [vm_compute; reflexivity|].
  apply (geocode_route_caches_mock geocode_body "Heavy flooding in Manhattan"
           world_store_only run.2 run.1).
  - vm_compute; reflexivity.
  - reflexivity.
  - reflexivity.
  - intros [H _]. vm_compute in H. discriminate H.
  - vm_compute; reflexivity.
  - vm_compute; exact I.
  - vm_compute; reflexivity.
Defined.

(** X20: with the store live, both geocoding keys configured and no
    unexpired entry for the text, a failure of the Gemini or of the
    Mapbox request makes POST /geocode answer 500, and nothing is
    cached. *)
Theorem geocode_failure_is_500 (b : json) (text : string) (w w' : World)
    (r : Res reply) :
  hasValidCredentials (env (up w)) = true ->
  faults w (reqs w) = None ->
  Geocode.configured (up w) ->
  Geocode.gemini_fails (up w) \/ Geocode.mapbox_fails (up w) ->
  parse_geocode b = Some text ->
  stale w (geocode_key text) ->
  geocode_request b w = (r, w') ->
  (exists resp, r = Ok (Failed resp) /\ status resp = 500%nat)
  /\ cache w' = cache w.
Proof.
  intros Hlive Hf0 Hcfg Hfail Hb Hstale Hrun.
  unfold geocode_request in Hrun. rewrite Hb in Hrun.
  destruct (getOrSetCache (geocode_key text) (Geocode.performGeocoding text) None w)
    as [r1 w1] eqn:Hcache.
  destruct (live_miss_outcome _ _ _ _ _ _ Hlive Hf0 Hstale Hcache)
    as ((u0 & u1 & Hp & He & Hh & Hc) & Hkeep).
  destruct (geocoding_throws text u0) as (msg & u' & Hthrow).
  { unfold Geocode.configured in *. by rewrite He. }
  { unfold Geocode.gemini_fails, Geocode.mapbox_fails in *. by rewrite Hh, Hc. }
  rewrite Hthrow in Hp. simplify_eq.
  destruct (json_route_run _ _ _ _ Hcache) as (resp & Hroute & Herr).
  rewrite Hroute in Hrun. simplify_eq.
  split; [|by apply (Hkeep _ eq_refl)].
  exists resp. split; [reflexivity|].
  unfold errorHandler, Error, mbind, mret, M_bind, M_ret, bind, ret, gets in Herr.
  simpl in Herr. case_match; by simplify_eq.
Qed.

Lemma geocode_failure_is_500_witness :
  let run := geocode_request geocode_body world_all_down in
  Geocode.configured (up world_all_down)
  /\ (exists resp, run.1 = Ok (Failed resp) /\ status resp = 500%nat)
  /\ cache run.2 = cache world_all_down.
Proof.
  intros run.
  assert (Hc : Geocode.configured (up world_all_down)) by (split; vm_compute; reflexivity).
  split; [exact Hc|].
  apply (geocode_failure_is_500 geocode_body "Heavy flooding in Manhattan"
           world_all_down run.2 run.1).
  - vm_compute; reflexivity.
  - reflexivity.
  - exact Hc.
  - left. exact I.
  - vm_compute; reflexivity.
  - vm_compute; exact I.
  - vm_compute; reflexivity.
Defined.



(** X22: without a Twitter token the route answers 200 with the three
    mock posts, asks the cache nothing and makes no request. *)
Theorem twitter_route_without_token (disaster_id query : option string) (w : World) :
  truthy (env (up w) !! "TWITTER_BEARER") = false ->
  exists posts u',
    SocialMedia.generateMockSocialMediaPosts disaster_id "twitter" (up w)
      = (Ok (JArr posts), u')
    /\ length posts = 3%nat
    /\ twitter_request disaster_id query w = (Ok (Replied 200 (JArr posts)), set_up u' w)
    /\ calls u' = calls (up w).
Proof.
  intros Hb. unfold twitter_request, json_route, try_catch.
  unfold mbind, M_bind, bind, lift_up, getenv, gets. simpl. rewrite Hb. simpl.
  unfold SocialMedia.generateMockSocialMediaPosts, SocialMedia.mock_post.
  unfold date_now, mbind, mret, M_bind, M_ret, bind, ret. simpl.
  eexists _, _. split; [reflexivity|]. split; [reflexivity|].
  split; [|reflexivity]. destruct w; reflexivity.
Qed.

Lemma twitter_route_without_token_witness :
  truthy (env (up world_store_only) !! "TWITTER_BEARER") = false
  /\ exists posts u',
       twitter_request (Some "d1") (Some "flood") world_store_only
       = (Ok (Replied 200 (JArr posts)), set_up u' world_store_only)
       /\ length posts = 3%nat.
Proof.
  assert (H : truthy (env (up world_store_only) !! "TWITTER_BEARER") = false)
    by (vm_compute; reflexivity).
  split; [exact H|].
  destruct (twitter_route_without_token (Some "d1") (Some "flood") world_store_only H)
    as (posts & u' & _ & Hlen & Hrun & _).
  exists posts, u'. auto.
Defined.
End RoutesMore.

(** * Role checks *)
Section RolesMore.
Import Supabase Disasters Routes Roles Fixtures Scenarios.

Lemma floor_low (r : Q) :
  (0 <= r)%Q -> (r < 1 # 2)%Q -> Qfloor (r * inject_Z 2) = 0.
Proof.
  intros H0 H1.
  assert (Hlo : 0 <= Qfloor (r * inject_Z 2)).
  { change 0 with (Qfloor 0). apply Qfloor_resp_le.
    apply Qmult_le_0_compat; [exact H0|discriminate]. }
  assert (Hhi : Qfloor (r * inject_Z 2) < 1).
  { rewrite Zlt_Qlt. eapply Qle_lt_trans; [apply Qfloor_le|].
    eapply Qlt_le_trans; [apply Qmult_lt_compat_r; [reflexivity|exact H1]|].
    discriminate. }
  lia.
Qed.

Lemma floor_high (r : Q) :
  (1 # 2 <= r)%Q -> (r < 1)%Q -> Qfloor (r * inject_Z 2) = 1.
Proof.
  intros H0 H1.
  assert (Hlo : 1 <= Qfloor (r * inject_Z 2)).
  { change 1 with (Qfloor (inject_Z 1)). apply Qfloor_resp_le.
    eapply Qle_trans; [|apply Qmult_le_compat_r; [exact H0|discriminate]].
    discriminate. }
  assert (Hhi : Qfloor (r * inject_Z 2) < 2).
  { rewrite Zlt_Qlt. eapply Qle_lt_trans; [apply Qfloor_le|].
    change (inject_Z 2) with (1 * inject_Z 2)%Q at 2.
    apply Qmult_lt_compat_r; [reflexivity|exact H1]. }
  lia.
Qed.

Lemma requireRole_admin role u :
  Auth.role u = "admin" -> requireRole role (Some u) = None.
Proof.
  intros H. unfold requireRole. rewrite H.
  change (String.eqb "admin" "admin") with true. by rewrite andb_false_r.
Qed.

Lemma requireRole_other role u :
  Auth.role u <> "admin" ->
  requireRole role (Some u)
  = if String.eqb (Auth.role u) role then None
    else Some (MkHttp 403 (BodyError "Insufficient permissions")).
Proof.
  intros H. unfold requireRole. apply String.eqb_neq in H. rewrite H.
  by destruct (String.eqb (Auth.role u) role).
Qed.

(** X23: after [authMiddleware], [requireRole(role)] never answers 401;
    it lets the request pass when the draw is below one half (the admin)
    and otherwise only when the role asked for is [contributor],
    answering 403 if not. *)
Theorem role_gate_follows_the_draw (role : string) (u : Upstream) :
  (0 <= random u (draws u))%Q -> (random u (draws u) < 1)%Q ->
  exists res u',
    authorize role u = (Ok res, u')
    /\ res <> Some (MkHttp 401 (BodyError "Authentication required"))
    /\ ((random u (draws u) < 1 # 2)%Q -> res = None)
    /\ ((1 # 2 <= random u (draws u))%Q ->
        (res = None <-> role = "contributor")
        /\ (res <> None ->
            res = Some (MkHttp 403 (BodyError "Insufficient permissions")))).
Proof.
  intros H0 H1.
  unfold authorize, Auth.authMiddleware, math_random, mbind, mret, M_bind, M_ret,
    bind, ret.
  change (Z.of_nat (length Auth.mockUsers)) with 2.
  eexists _, _. split; [reflexivity|].
  destruct (Qlt_le_dec (random u (draws u)) (1 # 2)) as [Hlt|Hge].
  - rewrite (floor_low _ H0 Hlt).
    change (Auth.index Auth.mockUsers 0) with (Some (Auth.MkUser "u1" "admin")).
    rewrite requireRole_admin by reflexivity.
    split; [done|]. split; [done|].
    intros Hge. exfalso. apply (Qlt_not_le _ _ Hlt Hge).
  - rewrite (floor_high _ Hge H1).
    change (Auth.index Auth.mockUsers 1) with (Some (Auth.MkUser "u2" "contributor")).
    rewrite requireRole_other by discriminate. cbn [Auth.role].
    split; [by destruct (String.eqb "contributor" role)|].
    split; [intros Hlt; exfalso; apply (Qlt_not_le _ _ Hlt Hge)|].
    intros _. destruct (String.eqb_spec "contributor" role) as [<-|Hne].
    + split; [tauto | congruence].
    + split; [|reflexivity]. split; [done | congruence].
Qed.

Lemma role_gate_follows_the_draw_witness :
  let u := MkUpstream ∅ half_hours 0 (always (3 # 4)) 0 network_down 0 in
  (0 <= random u (draws u))%Q /\ (random u (draws u) < 1)%Q
  /\ (authorize "admin" u).1
     = Ok (Some (MkHttp 403 (BodyError "Insufficient permissions"))).
Proof.
  intros u.
  assert (H0 : (0 <= random u (draws u))%Q) by discriminate.
  assert (H1 : (random u (draws u) < 1)%Q) by reflexivity.
  split; [exact H0|]. split; [exact H1|].
  destruct (role_gate_follows_the_draw "admin" u H0 H1)
    as (res & u' & Hrun & _ & _ & Hhigh).
  rewrite Hrun. cbn. f_equal.
  destruct Hhigh as [Hiff H403]; [discriminate|].
  apply H403. intros Hnone. apply Hiff in Hnone. discriminate Hnone.
Defined.

End RolesMore.
